(** * plugins/modules/backup.py: on-demand backup of an application

    A shallow embedding of the Ansible module [backup] (class [Backup],
    method [application], and [main]) and the properties of its
    name-resolution-and-trigger sequence.

    The module talks to the backup service through [requests.post] and
    [requests.get] and ends through the host's [exit_json] / [fail_json]
    (both leave the process) or through an exception nobody catches.  The
    embedding threads the list of requests issued so far through a small
    monad; the service is an arbitrary function of that history. *)

From Stdlib Require Import String Ascii ZArith List Bool Lia DecimalString SpecFloat.
Import ListNotations.
Set Warnings "-register-all".
Local Open Scope string_scope.
Local Open Scope Z_scope.

(* ================================================================= *)
(** ** Python values and exceptions *)

(** What [Response.json()] hands back: Python's decoding of a JSON text.
    Numbers without fraction or exponent are [int], the others [float]
    (binary64, kept as a [spec_float]); objects are [dict]s, kept as
    association lists in insertion order with pairwise distinct keys. *)
Inductive json : Type :=
| JNull
| JBool (b : bool)
| JInt (n : Z)
| JFloat (f : spec_float)
| JStr (s : string)
| JArr (items : list json)
| JObj (fields : list (string * json)).

(** The exceptions the module can meet. Every one of them derives from
    [Exception]; [SystemExit], raised by [exit_json] and [fail_json], does
    not, and is modelled by [Stop] below. *)
Inductive exn : Type :=
| AttributeError
| KeyError
| TypeError
| IndexError
| ValueError
| OverflowError
| JSONDecodeError
| RequestException.

(** A pure Python expression: a value, or a raised exception. *)
Inductive py (A : Type) : Type :=
| Ok (a : A)
| Raise (e : exn).
Arguments Ok {A} a.
Arguments Raise {A} e.

Class Monad (m : Type -> Type) : Type := {
  ret : forall {A}, A -> m A;
  bind : forall {A B}, m A -> (A -> m B) -> m B
}.

Declare Scope monad_scope.
Delimit Scope monad_scope with monad.
Notation "x <- c ;; k" := (bind c (fun x => k))
  (at level 61, c at next level, right associativity) : monad_scope.
Notation "c ;; k" := (bind c (fun _ => k))
  (at level 61, right associativity) : monad_scope.
Local Open Scope monad_scope.

#[export] Instance Monad_py : Monad py := {
  ret := fun A a => Ok a;
  bind := fun A B c k => match c with Ok a => k a | Raise e => Raise e end
}.

(** A [dict] with [str] keys. *)
Definition dict (A : Type) : Type := list (string * A).

Fixpoint assoc {A : Type} (k : string) (d : dict A) : option A :=
  match d with
  | [] => None
  | (k', v) :: d' => if String.eqb k k' then Some v else assoc k d'
  end.

(** [d[k]] on a [dict]. *)
Definition dict_get {A : Type} (d : dict A) (k : string) : py A :=
  match assoc k d with
  | Some v => Ok v
  | None => Raise KeyError
  end.

(** [v[k]] with a [str] key [k] on a decoded JSON value: only a [dict] can
    be subscripted by a string. *)
Definition getitem (v : json) (k : string) : py json :=
  match v with
  | JObj fields => dict_get fields k
  | _ => Raise TypeError
  end.

Fixpoint chars (s : string) : list json :=
  match s with
  | EmptyString => []
  | String c s' => JStr (String c EmptyString) :: chars s'
  end.

(** [for x in v]: a list yields its items, a dict its keys, a str its
    characters; nothing else is iterable. *)
Definition iter (v : json) : py (list json) :=
  match v with
  | JArr items => Ok items
  | JObj fields => Ok (map (fun kv => JStr (fst kv)) fields)
  | JStr s => Ok (chars s)
  | _ => Raise TypeError
  end.

(** [l[0]]. *)
Definition index0 {A : Type} (l : list A) : py A :=
  match l with
  | x :: _ => Ok x
  | [] => Raise IndexError
  end.

(** [v == name] where [name] is a module parameter: a [str], or [None]
    when the task does not give it. *)
Definition name_eq (v : json) (name : option string) : bool :=
  match v, name with
  | JStr s, Some n => String.eqb s n
  | JNull, None => true
  | _, _ => false
  end.

(** A module parameter as a value sent in a JSON body. *)
Definition param_json (v : option string) : json :=
  match v with
  | Some s => JStr s
  | None => JNull
  end.

(** An f-string field holding a module parameter. *)
Definition fmt (name : option string) : string :=
  match name with
  | Some s => s
  | None => "None"
  end.

Definition decimal (n : Z) : string := NilZero.string_of_int (Z.to_int n).

(** [s.rstrip(...)]: drop the longest suffix made of characters in [strip]. *)
Fixpoint rstrip (strip : ascii -> bool) (s : string) : string :=
  match s with
  | EmptyString => EmptyString
  | String c s' =>
      match rstrip strip s' with
      | EmptyString => if strip c then EmptyString else String c EmptyString
      | r => String c r
      end
  end.

Definition is_slash (c : ascii) : bool := Ascii.eqb c "/"%char.

(** [v.rstrip(...)] on a parameter, [strip] being what the method does to
    a [str]: [None] has no such attribute. *)
Definition rstrip_param (strip : string -> string) (v : option string) : py string :=
  match v with
  | Some s => Ok (strip s)
  | None => Raise AttributeError
  end.

(** Truth value of a parameter: [None] and the empty string are false. *)
Definition truthy (v : option string) : bool :=
  match v with
  | Some EmptyString => false
  | Some _ => true
  | None => false
  end.

(* ================================================================= *)
(** ** HTTP through [requests] *)

Inductive method : Type := GET | POST.

Record request : Type := {
  rq_method : method;
  rq_url : string;
  rq_headers : dict string;
  rq_json : option json
}.

(** A response: its status code and the decoding of its body, [None] when
    the body is not a JSON text. *)
Record response : Type := {
  status_code : Z;
  body : option json
}.

(** What a call of [requests.post] / [requests.get] comes back with: a
    response, or an exception of the library (no connection, time-out...). *)
Inductive reply : Type :=
| Response (r : response)
| Failure.

(** [resp.json()]. *)
Definition resp_json (r : response) : py json :=
  match body r with
  | Some j => Ok j
  | None => Raise JSONDecodeError
  end.

(* ================================================================= *)
(** ** The host: results and termination *)

(** [class Backup]: its constructor sets [self.changed = False]. *)
Record Backup : Type := { changed : bool }.

Definition Backup_init : Backup := {| changed := false |}.

(** Keyword arguments given to [exit_json] / [fail_json]. *)
Inductive value : Type :=
| VBool (b : bool)
| VStr (s : string)
| VBackup (b : Backup).

(** How a run of the module ends. *)
Inductive outcome : Type :=
| ExitJson (kwargs : dict value)
| FailJson (kwargs : dict value)
| Uncaught (e : exn)
| MissingRequired (names : list string).

Inductive result (A : Type) : Type :=
| Val (a : A)
| Stop (o : outcome).
Arguments Val {A} a.
Arguments Stop {A} o.

(** Module code: from the requests issued so far (oldest first) to a value
    or a final outcome, and the requests issued by then. *)
Definition M (A : Type) : Type := list request -> result A * list request.

#[export] Instance Monad_M : Monad M := {
  ret := fun A a => (fun log => (Val a, log)) : M A;
  bind := fun A B (c : M A) (k : A -> M B) =>
    (fun log => match c log with
                | (Val a, log') => k a log'
                | (Stop o, log') => (Stop o, log')
                end) : M B
}.

(** What the host can write out as JSON: strings and booleans among the
    values the module passes, not an object of a class of its own. *)
Definition serialisable (v : value) : bool :=
  match v with
  | VBool _ | VStr _ => true
  | VBackup _ => false
  end.

(** The way out through the host: [exit_json] and [fail_json] write their
    keyword arguments out before they leave, and a value of a type the
    host does not know raises a [TypeError] in there, which nobody
    catches: nothing is reported then. *)
Definition hand_over (report : dict value -> outcome) (kwargs : dict value) : outcome :=
  if forallb (fun kv => serialisable (snd kv)) kwargs
  then report kwargs
  else Uncaught TypeError.

Definition exit_json {A : Type} (kwargs : dict value) : M A :=
  fun log => (Stop (hand_over ExitJson kwargs), log).

Definition fail_json {A : Type} (kwargs : dict value) : M A :=
  fun log => (Stop (hand_over FailJson kwargs), log).

(** An expression outside any [try]: its exception ends the run. *)
Definition lift {A : Type} (e : py A) : M A :=
  fun log => match e with
             | Ok a => (Val a, log)
             | Raise x => (Stop (Uncaught x), log)
             end.

(** [try: x = e / except KeyError: handler]. *)
Definition try_except_KeyError {A : Type} (e : py A) (handler : M A) : M A :=
  match e with
  | Ok a => ret a
  | Raise KeyError => handler
  | Raise x => lift (Raise x)
  end.

(** [try: x = e / except Exception: handler]. *)
Definition try_except_Exception {A : Type} (e : py A) (handler : M A) : M A :=
  match e with
  | Ok a => ret a
  | Raise _ => handler
  end.

(** The module never returns normally: what is left of a run is its
    outcome and the requests it issued. *)
Definition finish (x : result Empty_set * list request) : outcome * list request :=
  match x with
  | (Stop o, log) => (o, log)
  | (Val e, _) => match e with end
  end.

(** A run from an empty history. *)
Definition run (m : M Empty_set) : outcome * list request := finish (m []).

(* ================================================================= *)
(** ** The module *)

Section Plugin.

(** The backup service: its answer to a request, given the requests it
    has already received (oldest first). *)
Variable service : list request -> request -> reply.

(** Python's [str()] of a float, a list or a dict, and [int()] of a
    [str] ([None]: [ValueError]); their exact results are the
    interpreter's business. *)
Variable repr : json -> string.
Variable int_of_str : string -> option Z.

(** Python's [str.rstrip()] without argument: the string without its
    trailing white space, Unicode white space included. *)
Variable rstrip_space : string -> string.

(** An f-string field holding a decoded JSON value. *)
Definition py_str (v : json) : string :=
  match v with
  | JNull => "None"
  | JBool true => "True"
  | JBool false => "False"
  | JInt n => decimal n
  | JStr s => s
  | JFloat _ | JArr _ | JObj _ => repr v
  end.

(** [int(v)]. A float is truncated towards zero. *)
Definition py_int (v : json) : py Z :=
  match v with
  | JInt n => Ok n
  | JBool b => Ok (if b then 1 else 0)
  | JFloat (S754_zero _) => Ok 0
  | JFloat (S754_finite s m e) =>
      let a := Z.shiftl (Z.pos m) e in Ok (if s then - a else a)
  | JFloat (S754_infinity _) => Raise OverflowError
  | JFloat S754_nan => Raise ValueError
  | JStr s => match int_of_str s with Some n => Ok n | None => Raise ValueError end
  | JNull | JArr _ | JObj _ => Raise TypeError
  end.

Definition send (rq : request) : M response :=
  fun log =>
    match service log rq with
    | Response r => (Val r, (log ++ [rq])%list)
    | Failure => (Stop (Uncaught RequestException), (log ++ [rq])%list)
    end.

Definition requests_post (url : string) (headers : dict string)
    (json : option json) : M response :=
  send {| rq_method := POST; rq_url := url; rq_headers := headers; rq_json := json |}.

Definition requests_get (url : string) (headers : dict string) : M response :=
  send {| rq_method := GET; rq_url := url; rq_headers := headers; rq_json := None |}.

(** Lines 103-108: the local names read from [module.params]. *)
Record locals : Type := {
  api_url : string;
  access_token : string;
  template_name : option string;
  policy_name : option string;
  app_name : option string;
  label : option string
}.

Definition read_params (params : dict (option string)) : py locals :=
  api_url <- (u <- dict_get params "api_url" ;; rstrip_param (rstrip is_slash) u) ;;
  access_token <- (t <- dict_get params "access_token" ;; rstrip_param rstrip_space t) ;;
  template_name <- dict_get params "template_name" ;;
  policy_name <- dict_get params "policy_name" ;;
  app_name <- dict_get params "app_name" ;;
  label <- dict_get params "label" ;;
  ret {| api_url := api_url; access_token := access_token;
         template_name := template_name; policy_name := policy_name;
         app_name := app_name; label := label |}.

Definition backup_right : string := "Access to Backup & Recover".

(** Line 125, the comprehension:
    [[True for r in rights if r["id"] == "Access to Backup & Recover"]]. *)
Fixpoint access_flags (rights : list json) : py (list bool) :=
  match rights with
  | [] => Ok []
  | r :: rest =>
      id <- getitem r "id" ;;
      if name_eq id (Some backup_right)
      then flags <- access_flags rest ;; ret (true :: flags)
      else access_flags rest
  end.

(** Line 125, the right-hand side. *)
Definition access_scan (session_json : json) : py bool :=
  rights <- getitem session_json "rights" ;;
  rights <- iter rights ;;
  flags <- access_flags rights ;;
  index0 flags.

(** Lines 136, 142 and 148, the comprehension:
    [[x["id"] for x in items if x[key] == name]]. *)
Fixpoint ids_named (key : string) (name : option string) (items : list json)
    : py (list json) :=
  match items with
  | [] => Ok []
  | x :: rest =>
      v <- getitem x key ;;
      if name_eq v name
      then id <- getitem x "id" ;; ids <- ids_named key name rest ;; ret (id :: ids)
      else ids_named key name rest
  end.

(** Lines 136, 142 and 148, the right-hand side:
    [[x["id"] for x in resp.json()["items"] if x[key] == name][0]]. *)
Definition first_id (key : string) (name : option string) (resp : response)
    : py json :=
  j <- resp_json resp ;;
  items <- getitem j "items" ;;
  items <- iter items ;;
  ids <- ids_named key name items ;;
  index0 ids.

(** [f"{backup_resp.json}"]: the method is not called, so the field shows
    the bound method, which shows the response as [<Response [status]>]. *)
Definition bound_json_method (r : response) : string :=
  "<bound method Response.json of <Response [" ++ decimal (status_code r) ++ "]>>".

(** Lines 110-113: the headers of the session request. *)
Definition auth_headers (c : locals) : dict string :=
  [("Authorization", "Bearer " ++ access_token c);
   ("Content-Type", "application/json")].

(** Line 132: the same dict, with the session header added. *)
Definition session_headers (c : locals) (session_id : json) : dict string :=
  (auth_headers c
     ++ [("backupdr-management-session", ("Actifio " ++ py_str session_id)%string)])%list.

(** Lines 100 and 114-130: session establishment, session-id extraction
    and entitlement check. *)
Definition open_session (c : locals) : M json :=
  let have_access := false in
  auth_resp <- requests_post (api_url c ++ "/session") (auth_headers c) None ;;
  (if negb (status_code auth_resp =? 200)
   then fail_json [("changed", VBool false);
                   ("msg", VStr "Failed authentication - ensure you have authenticated with gcloud")]
   else ret tt) ;;
  session_json <- lift (resp_json auth_resp) ;;
  session_id <- try_except_KeyError (getitem session_json "id")
    (fail_json [("msg", VStr "Failed to get session ID on authentication")]) ;;
  let have_access :=
    match access_scan session_json with
    | Ok b => b
    | Raise _ => have_access
    end in
  (if negb have_access
   then fail_json [("changed", VBool false);
                   ("msg", VStr "You do not have access to invoke BackupNow")]
   else ret tt) ;;
  ret session_id.

Definition template_message (c : locals) : string :=
  "Failed to retrieve SLA template '" ++ fmt (template_name c) ++ "'".

Definition policy_message (c : locals) : string :=
  "Failed to retrieve SLA template policy '" ++ fmt (policy_name c)
    ++ "' for SLA template '" ++ fmt (template_name c) ++ "'".

Definition application_message (c : locals) : string :=
  "Failed to retrieve application '" ++ fmt (app_name c) ++ "'".

(** The shape the three lookups share: a GET, then under [try] the first
    id of the listing, with [except Exception: module.fail_json(msg=...)]. *)
Definition lookup (url : string) (headers : dict string) (key : string)
    (name : option string) (msg : string) : M json :=
  resp <- requests_get url headers ;;
  try_except_Exception (first_id key name resp) (fail_json [("msg", VStr msg)]).

(** Lines 134-138. *)
Definition find_template (c : locals) (headers : dict string) : M json :=
  lookup (api_url c ++ "/slt") headers "name" (template_name c) (template_message c).

(** Lines 140-144. *)
Definition find_policy (c : locals) (headers : dict string) (tpl_id : json) : M json :=
  lookup (api_url c ++ "/slt/" ++ py_str tpl_id ++ "/policy") headers
         "name" (policy_name c) (policy_message c).

(** Lines 146-150. *)
Definition find_application (c : locals) (headers : dict string) : M json :=
  lookup (api_url c ++ "/application") headers
         "appname" (app_name c) (application_message c).

(** Lines 152-158: the JSON body of the trigger request. *)
Definition backup_body (c : locals) (pol_int : Z) : dict json :=
  let backup_body := [("policy", JObj [("id", JInt pol_int)])] in
  if truthy (label c)
  then (backup_body ++ [("label", param_json (label c))])%list
  else backup_body.

Definition trigger_message (c : locals) (backup_resp : response) : string :=
  "Failed to initiate backup of application '" ++ fmt (app_name c)
    ++ "' (HTTP " ++ decimal (status_code backup_resp) ++ ": "
    ++ bound_json_method backup_resp ++ ")".

Definition success_message (c : locals) : string :=
  "Backup initiated for application '" ++ fmt (app_name c) ++ "'".

(** Lines 152-165: the trigger call and the final result. *)
Definition trigger (c : locals) (headers : dict string) (pol_id app_id : json)
    : M Empty_set :=
  pol_int <- lift (py_int pol_id) ;;
  backup_resp <- requests_post
    (api_url c ++ "/application/" ++ py_str app_id ++ "/backup")
    headers (Some (JObj (backup_body c pol_int))) ;;
  (if (status_code backup_resp <? 200) || (status_code backup_resp >? 204)
   then fail_json [("msg", VStr (trigger_message c backup_resp))]
   else ret tt) ;;
  exit_json [("changed", VBool true); ("msg", VStr (success_message c))].

(** [Backup.application], lines 98-165. *)
Definition application (params : dict (option string)) : M Empty_set :=
  c <- lift (read_params params) ;;
  session_id <- open_session c ;;
  let headers := session_headers c session_id in
  tpl_id <- find_template c headers ;;
  pol_id <- find_policy c headers tpl_id ;;
  app_id <- find_application c headers ;;
  trigger c headers pol_id app_id.

(** [dict(type="str")]: an option of [argument_spec]; [required] is
    false unless the option says otherwise. *)
Record arg_spec : Type := {
  arg_type : string;
  required : bool
}.

Definition str_arg : arg_spec := {| arg_type := "str"; required := false |}.

(** Lines 173-180. *)
Definition argument_spec : dict arg_spec :=
  [("api_url", str_arg);
   ("access_token", str_arg);
   ("template_name", str_arg);
   ("policy_name", str_arg);
   ("app_name", str_arg);
   ("label", str_arg)].

(** The arguments of a task, after the host has parsed them against the
    option names of the module: a string for each option the task gives. *)
Record task_args : Type := {
  arg_api_url : option string;
  arg_access_token : option string;
  arg_template_name : option string;
  arg_policy_name : option string;
  arg_app_name : option string;
  arg_label : option string
}.

Definition given (a : task_args) (name : string) : option string :=
  if (name =? "api_url")%string then arg_api_url a
  else if (name =? "access_token")%string then arg_access_token a
  else if (name =? "template_name")%string then arg_template_name a
  else if (name =? "policy_name")%string then arg_policy_name a
  else if (name =? "app_name")%string then arg_app_name a
  else if (name =? "label")%string then arg_label a
  else None.

Record invocation : Type := {
  args : task_args;
  check_mode : bool
}.

Definition is_missing (a : task_args) (entry : string * arg_spec) : bool :=
  required (snd entry) && match given a (fst entry) with None => true | Some _ => false end.

(** [AnsibleModule(argument_spec=..., supports_check_mode=True)], as far
    as [main] relies on it: a required option the task does not give
    fails the run; every other option not given is [None] in
    [module.params]. *)
Definition AnsibleModule (spec : dict arg_spec) (inv : invocation)
    : M (dict (option string)) :=
  match filter (is_missing (args inv)) spec with
  | [] => ret (map (fun entry => (fst entry, given (args inv) (fst entry))) spec)
  | missing => fun log => (Stop (MissingRequired (map fst missing)), log)
  end.

(** [main], lines 171-193. *)
Definition main (inv : invocation) : M Empty_set :=
  params <- AnsibleModule argument_spec inv ;;
  let backup := Backup_init in
  if check_mode inv
  then exit_json [("changed", VBool true); ("backup", VBackup backup)]
  else application params.

(* --------------------------------------------------------------- *)
(** *** The wire protocol, as the properties below speak of it *)

Definition get_request (url : string) (headers : dict string) : request :=
  {| rq_method := GET; rq_url := url; rq_headers := headers; rq_json := None |}.

(** [POST {api_url}/session]. *)
Definition session_request (c : locals) : request :=
  {| rq_method := POST; rq_url := api_url c ++ "/session";
     rq_headers := auth_headers c; rq_json := None |}.

(** [GET {api_url}/slt]. *)
Definition templates_request (c : locals) (sid : json) : request :=
  {| rq_method := GET; rq_url := api_url c ++ "/slt";
     rq_headers := session_headers c sid; rq_json := None |}.

(** [GET {api_url}/slt/{tpl}/policy]. *)
Definition policies_request (c : locals) (sid tpl : json) : request :=
  {| rq_method := GET; rq_url := api_url c ++ "/slt/" ++ py_str tpl ++ "/policy";
     rq_headers := session_headers c sid; rq_json := None |}.

(** [GET {api_url}/application]. *)
Definition applications_request (c : locals) (sid : json) : request :=
  {| rq_method := GET; rq_url := api_url c ++ "/application";
     rq_headers := session_headers c sid; rq_json := None |}.

(** [POST {api_url}/application/{app}/backup] with a JSON body. *)
Definition backup_request (c : locals) (sid app : json) (payload : json) : request :=
  {| rq_method := POST;
     rq_url := api_url c ++ "/application/" ++ py_str app ++ "/backup";
     rq_headers := session_headers c sid; rq_json := Some payload |}.

(** The four requests that come before the trigger call. *)
Definition lookups (c : locals) (sid tpl : json) : list request :=
  [session_request c; templates_request c sid;
   policies_request c sid tpl; applications_request c sid].

(** A backup-trigger call: a POST to [{api_url}/application/{id}/backup]. *)
Definition is_trigger (c : locals) (rq : request) : Prop :=
  rq_method rq = POST /\
  exists id : string, rq_url rq = api_url c ++ "/application/" ++ id ++ "/backup".

Definition is_error (o : outcome) : Prop :=
  match o with
  | ExitJson _ => False
  | FailJson _ | Uncaught _ | MissingRequired _ => True
  end.

(** The results the module ends with. *)
Definition authentication_failure : outcome :=
  FailJson [("changed", VBool false);
            ("msg", VStr "Failed authentication - ensure you have authenticated with gcloud")].

Definition session_id_failure : outcome :=
  FailJson [("msg", VStr "Failed to get session ID on authentication")].

Definition access_denied : outcome :=
  FailJson [("changed", VBool false);
            ("msg", VStr "You do not have access to invoke BackupNow")].

Definition not_found (msg : string) : outcome := FailJson [("msg", VStr msg)].

Definition trigger_failure (c : locals) (r : response) : outcome :=
  FailJson [("msg", VStr (trigger_message c r))].

Definition success (c : locals) : outcome :=
  ExitJson [("changed", VBool true); ("msg", VStr (success_message c))].

(** The session is established (status 200), carries the id [sid] and
    passes the entitlement check. *)
Definition authorized (c : locals) (sid : json) : Prop :=
  exists r j,
    service [] (session_request c) = Response r /\
    status_code r = 200 /\
    body r = Some j /\
    getitem j "id" = Ok sid /\
    access_scan j = Ok true.

(** After the requests of [log], the service answers [rq] with a listing
    in which the lookup of [name] under [key] finds [id]. *)
Definition found (log : list request) (rq : request) (key : string)
    (name : option string) (id : json) : Prop :=
  exists r, service log rq = Response r /\ first_id key name r = Ok id.

Definition template_found (c : locals) (sid tpl : json) : Prop :=
  found [session_request c] (templates_request c sid) "name" (template_name c) tpl.

Definition policy_found (c : locals) (sid tpl pol : json) : Prop :=
  found [session_request c; templates_request c sid]
        (policies_request c sid tpl) "name" (policy_name c) pol.

Definition application_found (c : locals) (sid tpl app : json) : Prop :=
  found [session_request c; templates_request c sid; policies_request c sid tpl]
        (applications_request c sid) "appname" (app_name c) app.

(** Every step before the trigger call succeeds. *)
Definition resolved (c : locals) (sid tpl pol app : json) : Prop :=
  authorized c sid /\ template_found c sid tpl /\
  policy_found c sid tpl pol /\ application_found c sid tpl app.

(** [x[key] == name], false when [x] has no such field. *)
Definition named (key : string) (name : option string) (x : json) : bool :=
  match getitem x key with
  | Ok v => name_eq v name
  | Raise _ => false
  end.

(** In the list of items of the response, [id] is the ["id"] of the
    first item whose [key] field equals [name]. *)
Definition first_named (key : string) (name : option string) (r : response)
    (id : json) : Prop :=
  exists j before x after,
    body r = Some j /\
    getitem j "items" = Ok (JArr (before ++ x :: after)%list) /\
    (forall y, In y before -> named key name y = false) /\
    named key name x = true /\
    getitem x "id" = Ok id.

(** An item the comprehension gets through: it has the name field [key],
    and an ["id"] when that field equals [name]. *)
Definition scannable (key : string) (name : option string) (x : json) : Prop :=
  (exists v, getitem x key = Ok v) /\
  (named key name x = true -> exists id, getitem x "id" = Ok id).

(** A response whose body is [{"items": [...]}] with a list the
    comprehension gets through to its end. *)
Definition scanned (key : string) (name : option string) (r : response) : Prop :=
  exists j items,
    body r = Some j /\ getitem j "items" = Ok (JArr items) /\
    forall x, In x items -> scannable key name x.

Definition is_str (v : json) : Prop := exists s, v = JStr s.

(** What makes a lookup raise inside its [try]. *)
Inductive lookup_raises (key : string) (name : option string) (r : response) : Prop :=
| not_json :
    body r = None -> lookup_raises key name r
| no_items j e :
    body r = Some j -> getitem j "items" = Raise e -> lookup_raises key name r
| items_not_a_list j v :
    body r = Some j -> getitem j "items" = Ok v ->
    (forall items, v <> JArr items) -> lookup_raises key name r
| item_without_name j items x e :
    body r = Some j -> getitem j "items" = Ok (JArr items) ->
    In x items -> getitem x key = Raise e -> lookup_raises key name r
| item_without_id j items x e :
    body r = Some j -> getitem j "items" = Ok (JArr items) ->
    In x items -> named key name x = true -> getitem x "id" = Raise e ->
    lookup_raises key name r
| no_such_name j items :
    body r = Some j -> getitem j "items" = Ok (JArr items) ->
    (forall x, In x items -> named key name x = false) ->
    lookup_raises key name r.

(** What makes the entitlement scan raise: no ["rights"], rights that are
    not a list, or an entry without an ["id"]. *)
Inductive rights_malformed (j : json) : Prop :=
| rights_missing e :
    getitem j "rights" = Raise e -> rights_malformed j
| rights_not_a_list v :
    getitem j "rights" = Ok v -> (forall items, v <> JArr items) ->
    rights_malformed j
| right_without_id items x e :
    getitem j "rights" = Ok (JArr items) -> In x items ->
    getitem x "id" = Raise e -> rights_malformed j.

(** The entitlement list holds no right with the backup id. *)
Definition lacks_backup_right (j : json) : Prop :=
  forall items x,
    getitem j "rights" = Ok (JArr items) -> In x items ->
    getitem x "id" <> Ok (JStr backup_right).

(** The result contract of the specification: a boolean [changed] and a
    string [msg]. *)
Definition has_contract (kwargs : dict value) : bool :=
  match assoc "changed" kwargs, assoc "msg" kwargs with
  | Some (VBool _), Some (VStr _) => true
  | _, _ => false
  end.

(* --------------------------------------------------------------- *)
(** *** Sample services and invocations *)

(** A service that answers the n-th request it receives with the n-th
    reply of a script, and fails to answer once the script is over. *)
Definition scripted (script : list reply) : list request -> request -> reply :=
  fun log _ => nth (length log) script Failure.

(** The sample runs format and convert integers and strings only: [repr]
    is never called there, and [int()] reads plain decimal literals. *)
Definition sample_repr (v : json) : string := "<object>".

Definition decimal_literal (s : string) : option Z :=
  option_map Z.of_int (NilZero.int_of_string s).

(** The sample tokens are ASCII text. On ASCII text [str.rstrip()] drops
    the trailing TAB, LF, VT, FF, CR, FS, GS, RS, US and spaces. *)
Definition is_ascii_space (c : ascii) : bool :=
  let n := nat_of_ascii c in
  ((9 <=? n) && (n <=? 13) || (28 <=? n) && (n <=? 32))%nat.

Definition ascii_rstrip (s : string) : string := rstrip is_ascii_space s.

Definition ok_response (j : json) : reply :=
  Response {| status_code := 200; body := Some j |}.

Definition item (key : string) (id : Z) (name : string) : json :=
  JObj [("id", JInt id); (key, JStr name)].

Definition listing_of (items : list json) : response :=
  {| status_code := 200; body := Some (JObj [("items", JArr items)]) |}.

Definition items_response (items : list json) : reply := Response (listing_of items).

Definition session_S1 : reply :=
  ok_response (JObj [("id", JStr "S1");
                     ("rights", JArr [JObj [("id", JStr "Access to Backup & Recover")]])]).

(** Sessions the entitlement check refuses: a right of another name, and
    rights given as a string instead of a list. *)
Definition other_rights : json :=
  JObj [("id", JStr "S1"); ("rights", JArr [JObj [("id", JStr "Dedup Async Manage")]])].

Definition rights_as_text : json :=
  JObj [("id", JStr "S1"); ("rights", JStr "Access to Backup & Recover")].

(** A task that gives every option but [template_name]. *)
Definition task_without_template : invocation :=
  {| args := {| arg_api_url := Some "https://backup.example/actifio/";
                arg_access_token := Some "token";
                arg_template_name := None;
                arg_policy_name := Some "pol";
                arg_app_name := Some "app";
                arg_label := None |};
     check_mode := false |}.

(** A service with one template, one policy and one application, the
    status and body of its trigger response left open. *)
Definition sample_service (status : Z) (answer : option json) : list reply :=
  [session_S1;
   items_response [item "name" 1 "tpl"];
   items_response [item "name" 2 "pol"];
   items_response [item "appname" 3 "app"];
   Response {| status_code := status; body := answer |}].

(** Listings in which the requested name appears twice. *)
Definition duplicates_service : list reply :=
  [session_S1;
   items_response [item "name" 7 "other"; item "name" 1 "tpl"; item "name" 9 "tpl"];
   items_response [item "name" 2 "pol"; item "name" 8 "pol"];
   items_response [item "appname" 3 "app"; item "appname" 4 "app"];
   Response {| status_code := 202; body := None |}].

(** A policy listing in which the requested name comes twice, the second
    item without an id. *)
Definition second_policy_without_id : response :=
  listing_of [item "name" 2 "pol"; JObj [("name", JStr "pol")]].

(** A service whose policy listing gives the policy a null id. *)
Definition null_policy_service : list reply :=
  [session_S1;
   items_response [item "name" 1 "tpl"];
   items_response [JObj [("id", JNull); ("name", JStr "pol")]];
   items_response [item "appname" 3 "app"]].

Definition sample_params (label : option string) : dict (option string) :=
  [("api_url", Some "https://backup.example/actifio/");
   ("access_token", Some "token");
   ("template_name", Some "tpl");
   ("policy_name", Some "pol");
   ("app_name", Some "app");
   ("label", label)].

Definition sample_locals (label : option string) : locals :=
  {| api_url := "https://backup.example/actifio";
     access_token := "token";
     template_name := Some "tpl";
     policy_name := Some "pol";
     app_name := Some "app";
     label := label |}.

(* --------------------------------------------------------------- *)
(** *** The ways a run of [application] ends *)

(** Each way out of lines 114-165, with what the service has answered by
    then, the result handed to the host and the requests issued. *)
Inductive ends (c : locals) : outcome -> list request -> Prop :=
| session_unreachable :
    service [] (session_request c) = Failure ->
    ends c (Uncaught RequestException) [session_request c]
| session_refused r :
    service [] (session_request c) = Response r ->
    status_code r <> 200 ->
    ends c authentication_failure [session_request c]
| session_not_json r :
    service [] (session_request c) = Response r ->
    status_code r = 200 -> body r = None ->
    ends c (Uncaught JSONDecodeError) [session_request c]
| session_without_id r j :
    service [] (session_request c) = Response r ->
    status_code r = 200 -> body r = Some j ->
    getitem j "id" = Raise KeyError ->
    ends c session_id_failure [session_request c]
| session_not_an_object r j e :
    service [] (session_request c) = Response r ->
    status_code r = 200 -> body r = Some j ->
    getitem j "id" = Raise e -> e <> KeyError ->
    ends c (Uncaught e) [session_request c]
| session_without_right r j sid :
    service [] (session_request c) = Response r ->
    status_code r = 200 -> body r = Some j ->
    getitem j "id" = Ok sid -> access_scan j <> Ok true ->
    ends c access_denied [session_request c]
| templates_unreachable sid :
    authorized c sid ->
    service [session_request c] (templates_request c sid) = Failure ->
    ends c (Uncaught RequestException) [session_request c; templates_request c sid]
| template_missing sid r e :
    authorized c sid ->
    service [session_request c] (templates_request c sid) = Response r ->
    first_id "name" (template_name c) r = Raise e ->
    ends c (not_found (template_message c))
         [session_request c; templates_request c sid]
| policies_unreachable sid tpl :
    authorized c sid -> template_found c sid tpl ->
    service [session_request c; templates_request c sid]
            (policies_request c sid tpl) = Failure ->
    ends c (Uncaught RequestException)
         [session_request c; templates_request c sid; policies_request c sid tpl]
| policy_missing sid tpl r e :
    authorized c sid -> template_found c sid tpl ->
    service [session_request c; templates_request c sid]
            (policies_request c sid tpl) = Response r ->
    first_id "name" (policy_name c) r = Raise e ->
    ends c (not_found (policy_message c))
         [session_request c; templates_request c sid; policies_request c sid tpl]
| applications_unreachable sid tpl pol :
    authorized c sid -> template_found c sid tpl -> policy_found c sid tpl pol ->
    service [session_request c; templates_request c sid; policies_request c sid tpl]
            (applications_request c sid) = Failure ->
    ends c (Uncaught RequestException) (lookups c sid tpl)
| application_missing sid tpl pol r e :
    authorized c sid -> template_found c sid tpl -> policy_found c sid tpl pol ->
    service [session_request c; templates_request c sid; policies_request c sid tpl]
            (applications_request c sid) = Response r ->
    first_id "appname" (app_name c) r = Raise e ->
    ends c (not_found (application_message c)) (lookups c sid tpl)
| policy_id_not_an_int sid tpl pol app e :
    resolved c sid tpl pol app ->
    py_int pol = Raise e ->
    ends c (Uncaught e) (lookups c sid tpl)
| trigger_unreachable sid tpl pol app n :
    resolved c sid tpl pol app ->
    py_int pol = Ok n ->
    service (lookups c sid tpl) (backup_request c sid app (JObj (backup_body c n)))
    = Failure ->
    ends c (Uncaught RequestException)
         (lookups c sid tpl ++ [backup_request c sid app (JObj (backup_body c n))])%list
| trigger_refused sid tpl pol app n r :
    resolved c sid tpl pol app ->
    py_int pol = Ok n ->
    service (lookups c sid tpl) (backup_request c sid app (JObj (backup_body c n)))
    = Response r ->
    status_code r < 200 \/ 204 < status_code r ->
    ends c (trigger_failure c r)
         (lookups c sid tpl ++ [backup_request c sid app (JObj (backup_body c n))])%list
| trigger_accepted sid tpl pol app n r :
    resolved c sid tpl pol app ->
    py_int pol = Ok n ->
    service (lookups c sid tpl) (backup_request c sid app (JObj (backup_body c n)))
    = Response r ->
    200 <= status_code r <= 204 ->
    ends c (success c)
         (lookups c sid tpl ++ [backup_request c sid app (JObj (backup_body c n))])%list.



(* ================================================================= *)
(** ** The steps of [application], one by one *)

Arguments access_scan : simpl never.
Arguments first_id : simpl never.
Arguments py_int : simpl never.
Arguments py_str : simpl never.
Arguments backup_body : simpl never.
Arguments decimal : simpl never.

Lemma append_cancel (a s t : string) : a ++ s = a ++ t -> s = t.
Proof.
  induction a as [|ch a IH]; cbn; intros H.
  - exact H.
  - injection H as H. auto.
Qed.

Lemma send_eq (rq : request) (log : list request) :
  send rq log =
  match service log rq with
  | Response r => (Val r, (log ++ [rq])%list)
  | Failure => (Stop (Uncaught RequestException), (log ++ [rq])%list)
  end.
Proof. reflexivity. Qed.

(** The decision tree of lines 114-130. *)
Lemma open_session_eq (c : locals) :
  open_session c [] =
  match service [] (session_request c) with
  | Failure => (Stop (Uncaught RequestException), [session_request c])
  | Response r =>
      if status_code r =? 200 then
        match body r with
        | None => (Stop (Uncaught JSONDecodeError), [session_request c])
        | Some j =>
            match getitem j "id" with
            | Raise KeyError => (Stop session_id_failure, [session_request c])
            | Raise e => (Stop (Uncaught e), [session_request c])
            | Ok sid =>
                match access_scan j with
                | Ok true => (Val sid, [session_request c])
                | _ => (Stop access_denied, [session_request c])
                end
            end
        end
      else (Stop authentication_failure, [session_request c])
  end.
Proof.
  unfold open_session, requests_post, session_request.
  cbn. rewrite send_eq. cbn.
  destruct (service _ _) as [r|]; [|reflexivity].
  destruct (status_code r =? 200); cbn; [|reflexivity].
  unfold resp_json. destruct (body r) as [j|]; cbn; [|reflexivity].
  destruct (getitem j "id") as [sid|[]]; cbn; try reflexivity.
  destruct (access_scan j) as [[]|e]; reflexivity.
Qed.

Lemma authorized_open_session (c : locals) (sid : json) :
  authorized c sid -> open_session c [] = (Val sid, [session_request c]).
Proof.
  intros (r & j & Hr & Hs & Hb & Hid & Hacc).
  rewrite open_session_eq, Hr, Hs, Hb, Hid, Hacc. reflexivity.
Qed.

Lemma open_session_val (c : locals) (sid : json) (log : list request) :
  open_session c [] = (Val sid, log) ->
  log = [session_request c] /\ authorized c sid.
Proof.
  rewrite open_session_eq. unfold authorized.
  destruct (service _ _) as [r|] eqn:Hr; [|discriminate].
  destruct (status_code r =? 200) eqn:Hs; [|discriminate].
  apply Z.eqb_eq in Hs.
  destruct (body r) as [j|] eqn:Hb; [|discriminate].
  destruct (getitem j "id") as [sid'|e] eqn:Hid; [|destruct e; discriminate].
  destruct (access_scan j) as [[]|e] eqn:Hacc; try discriminate.
  intros H; injection H as <- <-. split; [reflexivity|].
  exists r, j. auto.
Qed.

Lemma authorized_unique (c : locals) (sid sid' : json) :
  authorized c sid -> authorized c sid' -> sid = sid'.
Proof.
  intros H H'. apply authorized_open_session in H, H'. congruence.
Qed.

Lemma open_session_stop (c : locals) (o : outcome) (log : list request) :
  open_session c [] = (Stop o, log) ->
  log = [session_request c] /\ is_error o /\ forall sid, ~ authorized c sid.
Proof.
  intros H.
  assert (Hno : forall sid, ~ authorized c sid).
  { intros sid Ha. apply authorized_open_session in Ha. congruence. }
  revert H. rewrite open_session_eq.
  destruct (service _ _) as [r|].
  2:{ intros H; injection H as <- <-; cbn; auto. }
  destruct (status_code r =? 200).
  2:{ intros H; injection H as <- <-; cbn; auto. }
  destruct (body r) as [j|].
  2:{ intros H; injection H as <- <-; cbn; auto. }
  destruct (getitem j "id") as [sid'|e].
  - destruct (access_scan j) as [[]|e]; intros H; try discriminate;
      injection H as <- <-; cbn; auto.
  - destruct e; intros H; injection H as <- <-; cbn; auto.
Qed.

(** The decision tree of a lookup. *)
Lemma lookup_eq (url : string) (headers : dict string) (key : string)
    (name : option string) (msg : string) (log : list request) :
  lookup url headers key name msg log =
  match service log (get_request url headers) with
  | Failure =>
      (Stop (Uncaught RequestException), (log ++ [get_request url headers])%list)
  | Response r =>
      match first_id key name r with
      | Ok id => (Val id, (log ++ [get_request url headers])%list)
      | Raise _ => (Stop (not_found msg), (log ++ [get_request url headers])%list)
      end
  end.
Proof.
  unfold lookup, requests_get. fold (get_request url headers).
  cbn. rewrite send_eq.
  destruct (service _ _) as [r|]; [|reflexivity].
  destruct (first_id key name r); reflexivity.
Qed.

Lemma found_lookup url headers key name msg log id :
  found log (get_request url headers) key name id ->
  lookup url headers key name msg log
  = (Val id, (log ++ [get_request url headers])%list).
Proof.
  intros (r & Hr & Hid). rewrite lookup_eq, Hr, Hid. reflexivity.
Qed.

Lemma lookup_val url headers key name msg log id log' :
  lookup url headers key name msg log = (Val id, log') ->
  log' = (log ++ [get_request url headers])%list /\
  found log (get_request url headers) key name id.
Proof.
  rewrite lookup_eq. unfold found.
  destruct (service _ _) as [r|] eqn:Hr; [|discriminate].
  destruct (first_id key name r) as [id'|e] eqn:Hid; [|discriminate].
  intros H; injection H as <- <-. split; [reflexivity|]. exists r. auto.
Qed.

Lemma lookup_stop url headers key name msg log o log' :
  lookup url headers key name msg log = (Stop o, log') ->
  log' = (log ++ [get_request url headers])%list /\ is_error o /\
  forall id, ~ found log (get_request url headers) key name id.
Proof.
  intros H.
  assert (Hno : forall id, ~ found log (get_request url headers) key name id).
  { intros id Hf. apply found_lookup with (msg := msg) in Hf. congruence. }
  revert H. rewrite lookup_eq.
  destruct (service _ _) as [r|].
  - destruct (first_id key name r); intros H; [discriminate|].
    injection H as <- <-. cbn. auto.
  - intros H; injection H as <- <-. cbn. auto.
Qed.

Lemma found_unique log rq key name id id' :
  found log rq key name id -> found log rq key name id' -> id = id'.
Proof.
  intros (r & Hr & H) (r' & Hr' & H'). congruence.
Qed.

(** The decision tree of lines 152-165. *)
Lemma trigger_eq (c : locals) (sid pol app : json) (log : list request) :
  finish (trigger c (session_headers c sid) pol app log) =
  match py_int pol with
  | Raise e => (Uncaught e, log)
  | Ok n =>
      match service log (backup_request c sid app (JObj (backup_body c n))) with
      | Failure =>
          (Uncaught RequestException,
           (log ++ [backup_request c sid app (JObj (backup_body c n))])%list)
      | Response r =>
          (if (status_code r <? 200) || (status_code r >? 204)
           then trigger_failure c r else success c,
           (log ++ [backup_request c sid app (JObj (backup_body c n))])%list)
      end
  end.
Proof.
  unfold trigger, requests_post, lift. cbn.
  destruct (py_int pol) as [n|e]; [|reflexivity].
  fold (backup_request c sid app (JObj (backup_body c n))).
  rewrite send_eq.
  destruct (service _ _) as [r|]; [|reflexivity].
  cbn. destruct ((status_code r <? 200) || (status_code r >? 204)); reflexivity.
Qed.

Arguments open_session : simpl never.
Arguments lookup : simpl never.
Arguments trigger : simpl never.

(** [application] as the sequence of its steps. *)
Lemma application_eq (p : dict (option string)) (c : locals) :
  read_params p = Ok c ->
  run (application p) =
  match open_session c [] with
  | (Stop o, log) => (o, log)
  | (Val sid, log1) =>
      match find_template c (session_headers c sid) log1 with
      | (Stop o, log) => (o, log)
      | (Val tpl, log2) =>
          match find_policy c (session_headers c sid) tpl log2 with
          | (Stop o, log) => (o, log)
          | (Val pol, log3) =>
              match find_application c (session_headers c sid) log3 with
              | (Stop o, log) => (o, log)
              | (Val app, log4) =>
                  finish (trigger c (session_headers c sid) pol app log4)
              end
          end
      end
  end.
Proof.
  intros Hc. unfold run, application, find_template, find_policy, find_application.
  rewrite Hc. cbn.
  destruct (open_session c []) as [[sid|o] log1]; [|reflexivity].
  destruct (lookup _ _ _ _ _ log1) as [[tpl|o] log2]; [|reflexivity].
  destruct (lookup _ _ _ _ _ log2) as [[pol|o] log3]; [|reflexivity].
  destruct (lookup _ _ _ _ _ log3) as [[app|o] log4]; reflexivity.
Qed.

Lemma application_params_error (p : dict (option string)) (e : exn) :
  read_params p = Raise e -> run (application p) = (Uncaught e, []).
Proof.
  intros Hc. unfold run, application. rewrite Hc. reflexivity.
Qed.

(** Once every step before it has succeeded, the run is the trigger call. *)
Lemma application_resolved (p : dict (option string)) (c : locals)
    (sid tpl pol app : json) :
  read_params p = Ok c ->
  resolved c sid tpl pol app ->
  run (application p)
  = finish (trigger c (session_headers c sid) pol app (lookups c sid tpl)).
Proof.
  intros Hc (Ha & Ht & Hp & Hq).
  rewrite (application_eq p c Hc).
  rewrite (authorized_open_session c sid Ha).
  unfold find_template, find_policy, find_application.
  unfold template_found, templates_request in Ht.
  fold (get_request (api_url c ++ "/slt") (session_headers c sid)) in Ht.
  rewrite (found_lookup _ _ _ _ _ _ _ Ht).
  unfold policy_found, policies_request in Hp.
  fold (get_request (api_url c ++ "/slt/" ++ py_str tpl ++ "/policy") (session_headers c sid)) in Hp.
  cbn [List.app]. rewrite (found_lookup _ _ _ _ _ _ _ Hp).
  unfold application_found, applications_request in Hq.
  fold (get_request (api_url c ++ "/application") (session_headers c sid)) in Hq.
  cbn [List.app]. rewrite (found_lookup _ _ _ _ _ _ _ Hq).
  reflexivity.
Qed.

Lemma session_request_no_trigger (c : locals) : ~ is_trigger c (session_request c).
Proof.
  intros [_ [id H]]. cbn in H. apply append_cancel in H. discriminate H.
Qed.

Lemma lookups_no_trigger (c : locals) (sid tpl : json) (rq : request) :
  In rq (lookups c sid tpl) -> ~ is_trigger c rq.
Proof.
  unfold lookups. cbn [In].
  intros [<- | [<- | [<- | [<- | []]]]]; try (intros [H _]; discriminate H).
  apply session_request_no_trigger.
Qed.

(** Either every step before the trigger call succeeds, or the run ends
    in an error having issued some of the four lookups only. *)
Lemma application_cases (p : dict (option string)) (c : locals) :
  read_params p = Ok c ->
  (exists sid tpl pol app, resolved c sid tpl pol app) \/
  ((forall sid tpl pol app, ~ resolved c sid tpl pol app) /\
   is_error (fst (run (application p))) /\
   exists sid tpl, incl (snd (run (application p))) (lookups c sid tpl)).
Proof.
  intros Hc. rewrite (application_eq p c Hc).
  destruct (open_session c []) as [[sid|o] log1] eqn:H1.
  2:{ right. apply open_session_stop in H1 as (-> & Ho & Hno).
      split; [|split].
      - intros sid tpl pol app (Ha & _). exact (Hno sid Ha).
      - exact Ho.
      - exists JNull, JNull. cbn. intros rq [<- | []]. left. reflexivity. }
  apply open_session_val in H1 as (-> & Ha).
  unfold find_template, find_policy, find_application.
  destruct (lookup _ _ _ _ _ [session_request c]) as [[tpl|o] log2] eqn:H2.
  2:{ right. apply lookup_stop in H2 as (-> & Ho & Hno).
      split; [|split].
      - intros sid' tpl' pol app (Ha' & Ht & _).
        rewrite <- (authorized_unique c sid sid' Ha Ha') in Ht.
        exact (Hno tpl' Ht).
      - exact Ho.
      - exists sid, JNull. cbn. intros rq [<- | [<- | []]]; cbn; auto. }
  apply lookup_val in H2 as (-> & Ht).
  destruct (lookup _ _ _ _ _ ([session_request c] ++ _)%list) as [[pol|o] log3] eqn:H3.
  2:{ right. apply lookup_stop in H3 as (-> & Ho & Hno).
      split; [|split].
      - intros sid' tpl' pol app (Ha' & Ht' & Hp & _).
        rewrite <- (authorized_unique c sid sid' Ha Ha') in Ht', Hp.
        rewrite <- (found_unique _ _ _ _ _ _ Ht Ht') in Hp.
        exact (Hno pol Hp).
      - exact Ho.
      - exists sid, tpl. cbn. intros rq [<- | [<- | [<- | []]]]; cbn; auto. }
  apply lookup_val in H3 as (-> & Hp).
  destruct (lookup _ _ _ _ _ (([session_request c] ++ _) ++ _)%list) as [[app|o] log4] eqn:H4.
  2:{ right. apply lookup_stop in H4 as (-> & Ho & Hno).
      split; [|split].
      - intros sid' tpl' pol' app (Ha' & Ht' & Hp' & Hq).
        rewrite <- (authorized_unique c sid sid' Ha Ha') in Ht', Hq.
        rewrite <- (found_unique _ _ _ _ _ _ Ht Ht') in Hq.
        exact (Hno app Hq).
      - exact Ho.
      - exists sid, tpl. cbn. intros rq [<- | [<- | [<- | [<- | []]]]]; cbn; auto. }
  apply lookup_val in H4 as (-> & Hq).
  left. exists sid, tpl, pol, app. repeat split; assumption.
Qed.

(** The requests of a run that reaches the trigger step. *)
Lemma trigger_log (c : locals) (sid pol app : json) (log : list request) :
  snd (finish (trigger c (session_headers c sid) pol app log)) = log \/
  exists n,
    py_int pol = Ok n /\
    snd (finish (trigger c (session_headers c sid) pol app log))
    = (log ++ [backup_request c sid app (JObj (backup_body c n))])%list.
Proof.
  rewrite trigger_eq.
  destruct (py_int pol) as [n|e]; [right; exists n; split; [reflexivity|] | left; reflexivity].
  destruct (service _ _); reflexivity.
Qed.

(* ================================================================= *)
(** ** The comprehensions *)

Lemma chars_are_str (s : string) : Forall is_str (chars s).
Proof.
  induction s as [|ch s IH]; cbn; constructor; [eexists; reflexivity | exact IH].
Qed.

Lemma keys_are_str (fields : list (string * json)) :
  Forall is_str (map (fun kv => JStr (fst kv)) fields).
Proof.
  induction fields as [|kv fields IH]; cbn; constructor;
    [eexists; reflexivity | exact IH].
Qed.

(** Iterating over anything but a list raises or yields strings. *)
Lemma iter_not_a_list (v : json) :
  (forall items, v <> JArr items) ->
  (exists e, iter v = Raise e) \/ (exists l, iter v = Ok l /\ Forall is_str l).
Proof.
  intros Hv. destruct v; cbn; try (left; eexists; reflexivity).
  - right. eexists. split; [reflexivity | apply chars_are_str].
  - destruct (Hv items eq_refl).
  - right. eexists. split; [reflexivity | apply keys_are_str].
Qed.

Lemma name_eq_str (v : json) (s : string) :
  name_eq v (Some s) = true -> v = JStr s.
Proof.
  destruct v; cbn; try discriminate.
  intros H. apply String.eqb_eq in H. congruence.
Qed.

Lemma access_flags_of_strings (l : list json) :
  Forall is_str l -> exists e, (flags <- access_flags l ;; index0 flags) = Raise e.
Proof.
  intros [|x l' [s ->] _]; cbn; eexists; reflexivity.
Qed.

Lemma access_flags_raises (items : list json) (x : json) (e : exn) :
  In x items -> getitem x "id" = Raise e -> exists e', access_flags items = Raise e'.
Proof.
  induction items as [|y items IH]; intros Hin Hx; [destruct Hin|].
  cbn [access_flags bind Monad_py].
  destruct (getitem y "id") as [v|e0] eqn:Hy; [|eexists; reflexivity].
  destruct Hin as [-> | Hin]; [congruence|].
  destruct (IH Hin Hx) as [e' ->].
  destruct (name_eq v (Some backup_right)); eexists; reflexivity.
Qed.

Lemma access_flags_nonempty (items : list json) (flags : list bool) :
  access_flags items = Ok flags -> flags <> [] ->
  exists x, In x items /\ getitem x "id" = Ok (JStr backup_right).
Proof.
  revert flags. induction items as [|y items IH]; intros flags; cbn [access_flags bind Monad_py].
  - intros H; injection H as <-. intros Hne. destruct (Hne eq_refl).
  - destruct (getitem y "id") as [v|e0] eqn:Hy; [|discriminate].
    destruct (name_eq v (Some backup_right)) eqn:Hv.
    + intros _ _. exists y. split; [left; reflexivity|].
      apply name_eq_str in Hv. congruence.
    + intros H Hne. destruct (IH flags H Hne) as (x & Hin & Hx).
      exists x. split; [right; exact Hin | exact Hx].
Qed.

(** The entitlement scan yields [True] only on a list of rights that
    holds the backup right. *)
Lemma access_scan_true (j : json) :
  access_scan j = Ok true ->
  exists items x,
    getitem j "rights" = Ok (JArr items) /\ In x items /\
    getitem x "id" = Ok (JStr backup_right).
Proof.
  unfold access_scan. cbn [bind Monad_py].
  destruct (getitem j "rights") as [v|e] eqn:Hr; [|discriminate].
  destruct v; cbn [iter]; try discriminate.
  - intros H. destruct (access_flags_of_strings (chars s) (chars_are_str s)) as [e He].
    cbn [bind Monad_py] in He. rewrite He in H. discriminate.
  - destruct (access_flags items) as [flags|e] eqn:Hf; [|discriminate].
    intros H. destruct (access_flags_nonempty items flags Hf) as (x & Hin & Hx).
    + intros ->. discriminate.
    + exists items, x. auto.
  - intros H. destruct (access_flags_of_strings _ (keys_are_str fields)) as [e He].
    cbn [bind Monad_py] in He. rewrite He in H. discriminate.
Qed.

Lemma rights_malformed_raises (j : json) :
  rights_malformed j -> exists e, access_scan j = Raise e.
Proof.
  unfold access_scan. cbn [bind Monad_py].
  intros [e Hr | v Hr Hv | items x e Hr Hin Hx]; rewrite Hr.
  - eexists; reflexivity.
  - destruct (iter_not_a_list v Hv) as [[e ->] | (l & -> & Hl)].
    + eexists; reflexivity.
    + apply access_flags_of_strings, Hl.
  - cbn [iter]. destruct (access_flags_raises items x e Hin Hx) as [e' ->].
    eexists; reflexivity.
Qed.

Lemma ids_named_of_strings (key : string) (name : option string) (l : list json) :
  Forall is_str l -> exists e, (ids <- ids_named key name l ;; index0 ids) = Raise e.
Proof.
  intros [|x l' [s ->] _]; cbn; eexists; reflexivity.
Qed.

Lemma ids_named_item_raises key name (items : list json) (x : json) (e : exn) :
  In x items -> getitem x key = Raise e ->
  exists e', ids_named key name items = Raise e'.
Proof.
  induction items as [|y items IH]; intros Hin Hx; [destruct Hin|].
  cbn [ids_named bind Monad_py].
  destruct (getitem y key) as [v|e0] eqn:Hy; [|eexists; reflexivity].
  destruct Hin as [-> | Hin]; [congruence|].
  destruct (IH Hin Hx) as [e' ->].
  destruct (name_eq v name); [|eexists; reflexivity].
  destruct (getitem y "id"); eexists; reflexivity.
Qed.

Lemma ids_named_id_raises key name (items : list json) (x : json) (e : exn) :
  In x items -> named key name x = true -> getitem x "id" = Raise e ->
  exists e', ids_named key name items = Raise e'.
Proof.
  induction items as [|y items IH]; intros Hin Hn Hx; [destruct Hin|].
  cbn [ids_named bind Monad_py].
  destruct (getitem y key) as [v|e0] eqn:Hy; [|eexists; reflexivity].
  destruct Hin as [-> | Hin].
  - unfold named in Hn. rewrite Hy in Hn. rewrite Hn, Hx. eexists; reflexivity.
  - destruct (IH Hin Hn Hx) as [e' ->].
    destruct (name_eq v name); [|eexists; reflexivity].
    destruct (getitem y "id"); eexists; reflexivity.
Qed.

Lemma ids_named_none key name (items : list json) :
  (forall x, In x items -> named key name x = false) ->
  exists e, (ids <- ids_named key name items ;; index0 ids) = Raise e.
Proof.
  induction items as [|y items IH]; intros Hno.
  - eexists; reflexivity.
  - cbn [ids_named bind Monad_py].
    destruct (getitem y key) as [v|e0] eqn:Hy; [|eexists; reflexivity].
    assert (Hy' := Hno y (or_introl eq_refl)). unfold named in Hy'.
    rewrite Hy in Hy'. rewrite Hy'.
    apply IH. intros x Hin. apply Hno. right. exact Hin.
Qed.

(** The first id the comprehension collects is that of the first item
    with the requested name. *)
Lemma ids_named_first key name (items : list json) (id : json) (ids : list json) :
  ids_named key name items = Ok (id :: ids) ->
  exists before x after,
    items = (before ++ x :: after)%list /\
    (forall y, In y before -> named key name y = false) /\
    named key name x = true /\
    getitem x "id" = Ok id.
Proof.
  induction items as [|y items IH]; cbn [ids_named bind Monad_py]; [discriminate|].
  destruct (getitem y key) as [v|e0] eqn:Hy; [|discriminate].
  destruct (name_eq v name) eqn:Hv.
  - destruct (getitem y "id") as [i|e1] eqn:Hi; [|discriminate].
    destruct (ids_named key name items); [|discriminate].
    cbn. intros H; injection H as <- _.
    exists [], y, items. repeat split.
    + intros z [].
    + unfold named. rewrite Hy. exact Hv.
    + exact Hi.
  - intros H. destruct (IH H) as (before & x & after & -> & Hb & Hx & Hid).
    exists (y :: before), x, after. repeat split; auto.
    intros z [<- | Hz]; [|auto]. unfold named. rewrite Hy. exact Hv.
Qed.

(** A lookup that succeeds has found its id on the first item with the
    requested name. *)
Lemma first_id_first_named key name (r : response) (id : json) :
  first_id key name r = Ok id -> first_named key name r id.
Proof.
  unfold first_id, first_named, resp_json. cbn [bind Monad_py].
  destruct (body r) as [j|]; [|discriminate].
  destruct (getitem j "items") as [v|e] eqn:Hitems; [|discriminate].
  destruct v; cbn [iter]; try discriminate.
  - intros H. destruct (ids_named_of_strings key name _ (chars_are_str s)) as [e He].
    cbn [bind Monad_py] in He. rewrite He in H. discriminate.
  - destruct (ids_named key name items) as [[|i ids]|e] eqn:Hids; try discriminate.
    cbn. intros H; injection H as ->.
    destruct (ids_named_first key name items id ids Hids)
      as (before & x & after & -> & Hb & Hx & Hid).
    exists j, before, x, after. auto.
  - intros H. destruct (ids_named_of_strings key name _ (keys_are_str fields)) as [e He].
    cbn [bind Monad_py] in He. rewrite He in H. discriminate.
Qed.

(** Every cause of [lookup_raises] makes the body of the [try] raise. *)
Lemma lookup_raises_first_id key name (r : response) :
  lookup_raises key name r -> exists e, first_id key name r = Raise e.
Proof.
  unfold first_id, resp_json. cbn [bind Monad_py].
  intros [Hb | j e Hb Hitems | j v Hb Hitems Hv | j items x e Hb Hitems Hin Hx
          | j items x e Hb Hitems Hin Hn Hx | j items Hb Hitems Hno]; rewrite Hb;
    try rewrite Hitems; cbn [iter].
  - eexists; reflexivity.
  - eexists; reflexivity.
  - destruct (iter_not_a_list v Hv) as [[e ->] | (l & -> & Hl)].
    + eexists; reflexivity.
    + apply ids_named_of_strings, Hl.
  - destruct (ids_named_item_raises key name items x e Hin Hx) as [e' ->].
    eexists; reflexivity.
  - destruct (ids_named_id_raises key name items x e Hin Hn Hx) as [e' ->].
    eexists; reflexivity.
  - apply ids_named_none, Hno.
Qed.

Lemma ids_named_scannable key name (items : list json) (ids : list json) :
  ids_named key name items = Ok ids ->
  forall x, In x items -> scannable key name x.
Proof.
  revert ids. induction items as [|y items IH]; intros ids;
    cbn [ids_named bind Monad_py]; [intros _ x []|].
  destruct (getitem y key) as [v|e0] eqn:Hy; [|discriminate].
  destruct (name_eq v name) eqn:Hv.
  - destruct (getitem y "id") as [i|e1] eqn:Hi; [|discriminate].
    destruct (ids_named key name items) as [ids'|e2]; [|discriminate].
    intros _ x [<- | Hin]; [|exact (IH ids' eq_refl x Hin)].
    split; [exists v; exact Hy | intros _; exists i; exact Hi].
  - intros H x [<- | Hin]; [|exact (IH ids H x Hin)].
    split; [exists v; exact Hy|]. unfold named. rewrite Hy, Hv. discriminate.
Qed.

Lemma scannable_ids_named key name (items : list json) :
  (forall x, In x items -> scannable key name x) ->
  exists ids, ids_named key name items = Ok ids.
Proof.
  induction items as [|y items IH]; intros Hall; [eexists; reflexivity|].
  cbn [ids_named bind Monad_py].
  destruct (Hall y (or_introl eq_refl)) as [[v Hy] Hid].
  destruct IH as [ids Hids]; [intros x Hin; apply Hall; right; exact Hin|].
  rewrite Hy, Hids. destruct (name_eq v name) eqn:Hv; [|eexists; reflexivity].
  destruct Hid as [i Hi]; [unfold named; rewrite Hy; exact Hv|].
  rewrite Hi. eexists; reflexivity.
Qed.

Lemma ids_named_head key name (before after : list json) (x id : json)
    (ids : list json) :
  ids_named key name (before ++ x :: after) = Ok ids ->
  (forall y, In y before -> named key name y = false) ->
  named key name x = true ->
  getitem x "id" = Ok id ->
  exists rest, ids = id :: rest.
Proof.
  induction before as [|y before IH]; cbn [List.app ids_named bind Monad_py];
    intros Hids Hno Hx Hid.
  - unfold named in Hx. destruct (getitem x key) as [v|e0]; [|discriminate].
    rewrite Hx, Hid in Hids.
    destruct (ids_named key name after) as [rest|e1]; [|discriminate].
    cbn in Hids. injection Hids as <-. exists rest. reflexivity.
  - assert (Hy := Hno y (or_introl eq_refl)). unfold named in Hy.
    destruct (getitem y key) as [v|e0]; [|discriminate].
    rewrite Hy in Hids.
    apply IH; auto. intros z Hz. apply Hno. right. exact Hz.
Qed.

(** A lookup yields an id exactly on a list the scan gets through, and the
    id is that of the first item with the requested name. *)
Lemma first_id_scanned key name (r : response) (id : json) :
  first_id key name r = Ok id <->
  scanned key name r /\ first_named key name r id.
Proof.
  split.
  - intros H. split; [|exact (first_id_first_named key name r id H)].
    destruct (first_id_first_named key name r id H)
      as (j & before & x & after & Hb & Hitems & _).
    exists j, (before ++ x :: after)%list. split; [exact Hb|]. split; [exact Hitems|].
    unfold first_id, resp_json in H. cbn [bind Monad_py] in H.
    rewrite Hb, Hitems in H. cbn [iter] in H.
    destruct (ids_named key name (before ++ x :: after)) as [ids|e] eqn:Hids;
      [|discriminate].
    exact (ids_named_scannable key name _ ids Hids).
  - intros [(j & items & Hb & Hitems & Hall)
            (j' & before & x & after & Hb' & Hitems' & Hno & Hx & Hid)].
    assert (j' = j) by congruence. subst j'.
    assert (items = (before ++ x :: after)%list) by congruence. subst items.
    unfold first_id, resp_json. cbn [bind Monad_py]. rewrite Hb, Hitems. cbn [iter].
    destruct (scannable_ids_named key name _ Hall) as [ids Hids].
    rewrite Hids.
    destruct (ids_named_head key name before after x id ids Hids Hno Hx Hid) as [rest ->].
    reflexivity.
Qed.

(** A session with an id whose scan does not yield [True]: the run stops
    at the entitlement check, after the session request alone. *)
Lemma access_refused (p : dict (option string)) (c : locals) (r : response)
    (j sid : json) :
  read_params p = Ok c ->
  service [] (session_request c) = Response r ->
  status_code r = 200 ->
  body r = Some j ->
  getitem j "id" = Ok sid ->
  access_scan j <> Ok true ->
  run (application p) = (access_denied, [session_request c]).
Proof.
  intros Hc Hr Hs Hb Hid Hacc.
  rewrite (application_eq p c Hc), open_session_eq, Hr, Hs, Hb, Hid. cbn.
  destruct (access_scan j) as [[]|e]; [destruct (Hacc eq_refl) | reflexivity | reflexivity].
Qed.

(** A trigger call among the requests of a run: every step before it has
    succeeded, and it is the last request, built from the resolved ids. *)
Lemma trigger_in_log (p : dict (option string)) (c : locals) (rq : request) :
  read_params p = Ok c ->
  In rq (snd (run (application p))) -> is_trigger c rq ->
  exists sid tpl pol app n,
    resolved c sid tpl pol app /\ py_int pol = Ok n /\
    rq = backup_request c sid app (JObj (backup_body c n)) /\
    snd (run (application p)) = (lookups c sid tpl ++ [rq])%list.
Proof.
  intros Hc Hin Htrig.
  destruct (application_cases p c Hc)
    as [(sid & tpl & pol & app & Hres) | (_ & _ & sid & tpl & Hincl)].
  - rewrite (application_resolved p c sid tpl pol app Hc Hres) in Hin |- *.
    destruct (trigger_log c sid pol app (lookups c sid tpl)) as [Hlog | (n & Hn & Hlog)];
      rewrite Hlog in Hin |- *.
    + destruct (lookups_no_trigger c sid tpl rq Hin Htrig).
    + apply in_app_or in Hin as [Hin | [<- | []]].
      * destruct (lookups_no_trigger c sid tpl rq Hin Htrig).
      * exists sid, tpl, pol, app, n. auto.
  - destruct (lookups_no_trigger c sid tpl rq (Hincl rq Hin) Htrig).
Qed.

Lemma trigger_log_ok (c : locals) (sid pol app : json) (n : Z) (log : list request) :
  py_int pol = Ok n ->
  snd (finish (trigger c (session_headers c sid) pol app log))
  = (log ++ [backup_request c sid app (JObj (backup_body c n))])%list.
Proof.
  intros Hn. rewrite trigger_eq, Hn. destruct (service _ _); reflexivity.
Qed.

Lemma backup_request_is_trigger (c : locals) (sid app payload : json) :
  is_trigger c (backup_request c sid app payload).
Proof.
  split; [reflexivity|]. exists (py_str app). reflexivity.
Qed.

(** The run once every step before the trigger call has succeeded. *)
Lemma trigger_outcome (p : dict (option string)) (c : locals)
    (sid tpl pol app : json) (n : Z) (r : response) :
  read_params p = Ok c ->
  resolved c sid tpl pol app ->
  py_int pol = Ok n ->
  service (lookups c sid tpl) (backup_request c sid app (JObj (backup_body c n)))
  = Response r ->
  run (application p)
  = (if (status_code r <? 200) || (status_code r >? 204)
     then trigger_failure c r else success c,
     (lookups c sid tpl ++ [backup_request c sid app (JObj (backup_body c n))])%list).
Proof.
  intros Hc Hres Hn Hr.
  rewrite (application_resolved p c sid tpl pol app Hc Hres), trigger_eq, Hn, Hr.
  reflexivity.
Qed.

(** The results a run can end with. *)
Lemma application_outcomes (p : dict (option string)) (c : locals) :
  read_params p = Ok c ->
  let o := fst (run (application p)) in
  (exists e, o = Uncaught e) \/
  o = authentication_failure \/ o = session_id_failure \/ o = access_denied \/
  o = not_found (template_message c) \/ o = not_found (policy_message c) \/
  o = not_found (application_message c) \/
  (exists r, o = trigger_failure c r) \/ o = success c.
Proof.
  intros Hc. cbv zeta. rewrite (application_eq p c Hc), open_session_eq.
  unfold find_template, find_policy, find_application.
  destruct (service _ _) as [r|]; [|cbn; eauto].
  destruct (status_code r =? 200); [|cbn; auto].
  destruct (body r) as [j|]; [|cbn; eauto].
  destruct (getitem j "id") as [sid|e]; [|destruct e; cbn; eauto 6].
  destruct (access_scan j) as [[]|e]; [|cbn; auto 6 | cbn; auto 6].
  rewrite lookup_eq.
  destruct (service _ _) as [r2|]; [|cbn; eauto].
  destruct (first_id _ _ r2) as [tpl|e]; [|cbn; auto 8].
  rewrite lookup_eq.
  destruct (service _ _) as [r3|]; [|cbn; eauto].
  destruct (first_id _ _ r3) as [pol|e]; [|cbn; auto 8].
  rewrite lookup_eq.
  destruct (service _ _) as [r4|]; [|cbn; eauto].
  destruct (first_id _ _ r4) as [app|e]; [|cbn; auto 10].
  rewrite trigger_eq.
  destruct (py_int pol) as [n|e]; [|cbn; eauto].
  destruct (service _ _) as [r5|]; [|cbn; eauto].
  cbn [fst]. destruct ((status_code r5 <? 200) || (status_code r5 >? 204)).
  - do 7 right. left. exists r5. reflexivity.
  - do 8 right. reflexivity.
Qed.

(** The failure message of the trigger call depends on the status code of
    the response alone. *)
Lemma trigger_message_ignores_body (c : locals) (r : response) (b : option json) :
  trigger_message c r = trigger_message c {| status_code := status_code r; body := b |}.
Proof. reflexivity. Qed.

(** Outside check mode, [main] is [application] on the parameters the
    host builds: the task's value for each option, [None] for the others. *)
Lemma main_is_application (a : task_args) :
  run (main {| args := a; check_mode := false |})
  = run (application
           [("api_url", arg_api_url a);
            ("access_token", arg_access_token a);
            ("template_name", arg_template_name a);
            ("policy_name", arg_policy_name a);
            ("app_name", arg_app_name a);
            ("label", arg_label a)]).
Proof. reflexivity. Qed.

(* ================================================================= *)
(** ** Properties *)

(** C1. Whatever the parameters and the service: when one of the steps
    before the trigger call fails (session establishment, session id,
    entitlement check, template, policy or application lookup), the run
    ends in an error and no POST to [{api_url}/application/{id}/backup] is
    among its requests; and a run that issues such a POST has been through
    all of these steps with success, the POST coming last, after the four
    requests of those steps. *)
Theorem trigger_only_after_every_step (p : dict (option string)) :
  match read_params p with
  | Raise e => run (application p) = (Uncaught e, [])
  | Ok c =>
      ((forall sid tpl pol app, ~ resolved c sid tpl pol app) ->
       is_error (fst (run (application p))) /\
       forall rq, In rq (snd (run (application p))) -> ~ is_trigger c rq)
      /\
      (forall rq,
          In rq (snd (run (application p))) -> is_trigger c rq ->
          exists sid tpl pol app,
            resolved c sid tpl pol app /\
            snd (run (application p)) = (lookups c sid tpl ++ [rq])%list)
  end.
Proof.
  destruct (read_params p) as [c|e] eqn:Hc.
  2:{ apply application_params_error, Hc. }
  split.
  - intros Hnone.
    destruct (application_cases p c Hc)
      as [(sid & tpl & pol & app & Hres) | (_ & Herr & sid & tpl & Hincl)].
    + destruct (Hnone sid tpl pol app Hres).
    + split; [exact Herr|].
      intros rq Hin. apply (lookups_no_trigger c sid tpl), Hincl, Hin.
  - intros rq Hin Htrig.
    destruct (trigger_in_log p c rq Hc Hin Htrig)
      as (sid & tpl & pol & app & n & Hres & _ & _ & Hlog).
    exists sid, tpl, pol, app. auto.
Qed.

(** C4. A session response with status 200 and a session id, whose
    entitlement list holds no right with id "Access to Backup & Recover":
    the run fails with the authorization message, and the session request
    is the only request it has issued (no template, policy, application or
    backup call). *)
Theorem no_entitlement_no_lookup (p : dict (option string)) (c : locals)
    (r : response) (j sid : json) :
  read_params p = Ok c ->
  service [] (session_request c) = Response r ->
  status_code r = 200 ->
  body r = Some j ->
  getitem j "id" = Ok sid ->
  lacks_backup_right j ->
  run (application p)
  = (FailJson [("changed", VBool false);
               ("msg", VStr "You do not have access to invoke BackupNow")],
     [session_request c]).
Proof.
  intros Hc Hr Hs Hb Hid Hlack.
  apply (access_refused p c r j sid Hc Hr Hs Hb Hid).
  intros Hacc. apply access_scan_true in Hacc as (items & x & Hrights & Hin & Hx).
  exact (Hlack items x Hrights Hin Hx).
Qed.

(** C9. A session response with status 200 and a session id, whose
    "rights" are missing, are not a list, or hold an entry without an
    "id": the entitlement scan raises, the exception is swallowed, and the
    run fails with "You do not have access to invoke BackupNow", as it
    does for a session without the right. *)
Theorem malformed_rights_read_as_no_access (p : dict (option string)) (c : locals)
    (r : response) (j sid : json) :
  read_params p = Ok c ->
  service [] (session_request c) = Response r ->
  status_code r = 200 ->
  body r = Some j ->
  getitem j "id" = Ok sid ->
  rights_malformed j ->
  (exists e, access_scan j = Raise e) /\
  run (application p)
  = (FailJson [("changed", VBool false);
               ("msg", VStr "You do not have access to invoke BackupNow")],
     [session_request c]).
Proof.
  intros Hc Hr Hs Hb Hid Hbad.
  destruct (rights_malformed_raises j Hbad) as [e He].
  split; [exists e; exact He|].
  apply (access_refused p c r j sid Hc Hr Hs Hb Hid).
  rewrite He. discriminate.
Qed.

(** C5, as amended. Each of the three lookups (the template by "name",
    the policy by "name" in the listing fetched under the resolved
    template id, the application by "appname") yields an id exactly when
    the body is an object whose "items" is a list that the scan gets
    through (every item has the name field, every item of the requested
    name has an "id") and that holds an item of the requested name; the id
    is then that of the first such item in list order, later items of the
    same name not counting. A run whose three listings are such goes on to
    the trigger step with these ids: the policy listing is fetched under
    the template id, and the trigger call, if the policy id converts, goes
    to the application id with that policy id. *)
Theorem lookups_take_first_match_of_scanned_list :
  (forall key name r id,
      first_id key name r = Ok id <->
      scanned key name r /\ first_named key name r id)
  /\
  (forall p c sid tpl pol app r2 r3 r4,
      read_params p = Ok c ->
      authorized c sid ->
      service [session_request c] (templates_request c sid) = Response r2 ->
      scanned "name" (template_name c) r2 ->
      first_named "name" (template_name c) r2 tpl ->
      service [session_request c; templates_request c sid]
              (policies_request c sid tpl) = Response r3 ->
      scanned "name" (policy_name c) r3 ->
      first_named "name" (policy_name c) r3 pol ->
      service [session_request c; templates_request c sid; policies_request c sid tpl]
              (applications_request c sid) = Response r4 ->
      scanned "appname" (app_name c) r4 ->
      first_named "appname" (app_name c) r4 app ->
      (forall n,
          py_int pol = Ok n ->
          snd (run (application p))
          = (lookups c sid tpl
               ++ [backup_request c sid app (JObj (backup_body c n))])%list)
      /\
      (forall e,
          py_int pol = Raise e ->
          run (application p) = (Uncaught e, lookups c sid tpl))).
Proof.
  split; [exact first_id_scanned|].
  intros p c sid tpl pol app r2 r3 r4 Hc Ha Hr2 Hs2 Hf2 Hr3 Hs3 Hf3 Hr4 Hs4 Hf4.
  assert (Hres : resolved c sid tpl pol app).
  { repeat split; [exact Ha | exists r2 | exists r3 | exists r4];
      (split; [assumption | apply first_id_scanned; split; assumption]). }
  rewrite (application_resolved p c sid tpl pol app Hc Hres). split.
  - intros n Hn. apply trigger_log_ok, Hn.
  - intros e Hn. rewrite trigger_eq, Hn. reflexivity.
Qed.

(** C10. In each of the three lookups, whatever makes the body of the
    [try] raise (a body that is not JSON, no "items", items that are not a
    list, an item without the name field, a matching item without "id")
    ends the run with the very failure of a listing that holds no item of
    the requested name: the "Failed to retrieve ..." message naming the
    entity, after the lookup's request. *)
Theorem malformed_listing_reads_as_not_found (p : dict (option string)) (c : locals)
    (sid : json) :
  read_params p = Ok c ->
  authorized c sid ->
  (forall r2,
      service [session_request c] (templates_request c sid) = Response r2 ->
      lookup_raises "name" (template_name c) r2 ->
      run (application p)
      = (FailJson [("msg", VStr ("Failed to retrieve SLA template '"
                                 ++ fmt (template_name c) ++ "'"))],
         [session_request c; templates_request c sid]))
  /\
  (forall tpl r3,
      template_found c sid tpl ->
      service [session_request c; templates_request c sid]
              (policies_request c sid tpl) = Response r3 ->
      lookup_raises "name" (policy_name c) r3 ->
      run (application p)
      = (FailJson [("msg", VStr ("Failed to retrieve SLA template policy '"
                                 ++ fmt (policy_name c) ++ "' for SLA template '"
                                 ++ fmt (template_name c) ++ "'"))],
         [session_request c; templates_request c sid; policies_request c sid tpl]))
  /\
  (forall tpl pol r4,
      template_found c sid tpl ->
      policy_found c sid tpl pol ->
      service [session_request c; templates_request c sid; policies_request c sid tpl]
              (applications_request c sid) = Response r4 ->
      lookup_raises "appname" (app_name c) r4 ->
      run (application p)
      = (FailJson [("msg", VStr ("Failed to retrieve application '"
                                 ++ fmt (app_name c) ++ "'"))],
         lookups c sid tpl)).
Proof.
  intros Hc Ha.
  pose proof (application_eq p c Hc) as Heq.
  rewrite (authorized_open_session c sid Ha) in Heq.
  unfold find_template, find_policy, find_application in Heq.
  fold (get_request (api_url c ++ "/slt") (session_headers c sid)) in Heq.
  split; [|split].
  - intros r2 Hr2 Hbad. destruct (lookup_raises_first_id _ _ _ Hbad) as [e He].
    rewrite Heq. rewrite lookup_eq. unfold templates_request in Hr2.
    fold (get_request (api_url c ++ "/slt") (session_headers c sid)) in Hr2.
    rewrite Hr2, He. reflexivity.
  - intros tpl r3 Ht Hr3 Hbad. destruct (lookup_raises_first_id _ _ _ Hbad) as [e He].
    rewrite Heq. rewrite (found_lookup _ _ _ _ _ _ _ Ht).
    rewrite lookup_eq.
    change (service _ (get_request _ _))
      with (service [session_request c; templates_request c sid] (policies_request c sid tpl)).
    rewrite Hr3, He. reflexivity.
  - intros tpl pol r4 Ht Hp Hr4 Hbad.
    destruct (lookup_raises_first_id _ _ _ Hbad) as [e He].
    rewrite Heq. rewrite (found_lookup _ _ _ _ _ _ _ Ht).
    rewrite (found_lookup _ _ _ _ _ _ _ Hp).
    rewrite lookup_eq.
    change (service _ (get_request _ _))
      with (service [session_request c; templates_request c sid; policies_request c sid tpl]
                    (applications_request c sid)).
    rewrite Hr4, He. reflexivity.
Qed.

(** C8, as amended. Once the ids are resolved, the run issues the trigger
    call, whose JSON body holds the policy id as an integer under
    "policy"/"id" and, when the label parameter is a non-empty string, that
    string unchanged under "label"; when the label is absent or empty the
    body holds the policy id and no "label" key. *)
Theorem trigger_body_policy_and_label (p : dict (option string)) (c : locals)
    (sid tpl pol app : json) (n : Z) :
  read_params p = Ok c ->
  resolved c sid tpl pol app ->
  py_int pol = Ok n ->
  exists rq,
    snd (run (application p)) = (lookups c sid tpl ++ [rq])%list /\
    is_trigger c rq /\
    rq_json rq
    = Some (JObj (("policy", JObj [("id", JInt n)])
                    :: match label c with
                       | Some (String a l) => [("label", JStr (String a l))]
                       | Some EmptyString | None => []
                       end)).
Proof.
  intros Hc Hres Hn.
  exists (backup_request c sid app (JObj (backup_body c n))).
  split; [|split].
  - rewrite (application_resolved p c sid tpl pol app Hc Hres).
    apply trigger_log_ok, Hn.
  - apply backup_request_is_trigger.
  - unfold backup_body. destruct (label c) as [[|a l]|]; reflexivity.
Qed.

(** C7, as amended. Every run of [application] that ends through
    [exit_json] or [fail_json] hands over a string "msg"; a "changed"
    field, where there is one, is a boolean, false on failure; on success
    "changed" is true and "msg" is "Backup initiated for application
    '<app_name>'". *)
Theorem result_has_message (p : dict (option string)) :
  match fst (run (application p)) with
  | ExitJson kwargs =>
      exists c,
        read_params p = Ok c /\
        kwargs = [("changed", VBool true);
                  ("msg", VStr ("Backup initiated for application '"
                                ++ fmt (app_name c) ++ "'"))]
  | FailJson kwargs =>
      (exists msg, assoc "msg" kwargs = Some (VStr msg)) /\
      (assoc "changed" kwargs = None \/ assoc "changed" kwargs = Some (VBool false))
  | Uncaught _ => True
  | MissingRequired _ => False
  end.
Proof.
  destruct (read_params p) as [c|e] eqn:Hc.
  2:{ rewrite (application_params_error p e Hc). exact I. }
  destruct (application_outcomes p c Hc)
    as [[e ->] | [-> | [-> | [-> | [-> | [-> | [-> | [[r ->] | ->]]]]]]]]; cbn.
  - exact I.
  - split; [eexists; reflexivity | right; reflexivity].
  - split; [eexists; reflexivity | left; reflexivity].
  - split; [eexists; reflexivity | right; reflexivity].
  - split; [eexists; reflexivity | left; reflexivity].
  - split; [eexists; reflexivity | left; reflexivity].
  - split; [eexists; reflexivity | left; reflexivity].
  - split; [eexists; reflexivity | left; reflexivity].
  - exists c. split; reflexivity.
Qed.

(** C6. In check mode, whatever the arguments, the module issues no
    request, and reports nothing either: it hands [exit_json] its own
    [Backup] object beside [changed=True], which the host cannot write
    out, so the run ends in a [TypeError]. *)
Theorem check_mode_reports_nothing (a : task_args) :
  run (main {| args := a; check_mode := true |}) = (Uncaught TypeError, [])
  /\ serialisable (VBackup Backup_init) = false.
Proof. split; reflexivity. Qed.

(* ================================================================= *)
(** ** Every way out of [application] *)

Lemma application_after_session (p : dict (option string)) (c : locals) (sid : json) :
  read_params p = Ok c ->
  authorized c sid ->
  run (application p) =
  match service [session_request c] (templates_request c sid) with
  | Failure =>
      (Uncaught RequestException, [session_request c; templates_request c sid])
  | Response r =>
      match first_id "name" (template_name c) r with
      | Raise _ =>
          (not_found (template_message c),
           [session_request c; templates_request c sid])
      | Ok tpl =>
          match service [session_request c; templates_request c sid]
                        (policies_request c sid tpl) with
          | Failure =>
              (Uncaught RequestException,
               [session_request c; templates_request c sid; policies_request c sid tpl])
          | Response r3 =>
              match first_id "name" (policy_name c) r3 with
              | Raise _ =>
                  (not_found (policy_message c),
                   [session_request c; templates_request c sid;
                    policies_request c sid tpl])
              | Ok pol =>
                  match service [session_request c; templates_request c sid;
                                 policies_request c sid tpl]
                                (applications_request c sid) with
                  | Failure => (Uncaught RequestException, lookups c sid tpl)
                  | Response r4 =>
                      match first_id "appname" (app_name c) r4 with
                      | Raise _ => (not_found (application_message c), lookups c sid tpl)
                      | Ok app =>
                          finish (trigger c (session_headers c sid) pol app
                                          (lookups c sid tpl))
                      end
                  end
              end
          end
      end
  end.
Proof.
  intros Hc Ha.
  rewrite (application_eq p c Hc), (authorized_open_session c sid Ha).
  unfold find_template, find_policy, find_application.
  rewrite lookup_eq.
  change (service [session_request c] (get_request _ _))
    with (service [session_request c] (templates_request c sid)).
  destruct (service _ _) as [r2|]; [|reflexivity].
  destruct (first_id _ _ r2) as [tpl|e]; [|reflexivity].
  rewrite lookup_eq.
  change (service _ (get_request _ _))
    with (service [session_request c; templates_request c sid] (policies_request c sid tpl)).
  destruct (service _ _) as [r3|]; [|reflexivity].
  destruct (first_id _ _ r3) as [pol|e]; [|reflexivity].
  rewrite lookup_eq.
  change (service _ (get_request _ _))
    with (service [session_request c; templates_request c sid; policies_request c sid tpl]
                  (applications_request c sid)).
  destruct (service _ _) as [r4|]; [|reflexivity].
  destruct (first_id _ _ r4) as [app|e]; reflexivity.
Qed.

(** A run ends in one of the ways of [ends]. *)
Lemma application_ends (p : dict (option string)) (c : locals) :
  read_params p = Ok c ->
  ends c (fst (run (application p))) (snd (run (application p))).
Proof.
  intros Hc.
  destruct (service [] (session_request c)) as [r|] eqn:Hr.
  2:{ rewrite (application_eq p c Hc), open_session_eq, Hr.
      apply session_unreachable, Hr. }
  destruct (Z.eq_dec (status_code r) 200) as [Hs|Hs].
  2:{ rewrite (application_eq p c Hc), open_session_eq, Hr.
      apply Z.eqb_neq in Hs as Hs'. rewrite Hs'. apply (session_refused c r Hr Hs). }
  destruct (body r) as [j|] eqn:Hb.
  2:{ rewrite (application_eq p c Hc), open_session_eq, Hr, Hs, Hb.
      apply (session_not_json c r Hr Hs Hb). }
  destruct (getitem j "id") as [sid|e] eqn:Hid.
  2:{ rewrite (application_eq p c Hc), open_session_eq, Hr, Hs, Hb, Hid.
      destruct e;
        first [ apply (session_without_id c r j Hr Hs Hb Hid)
              | apply (session_not_an_object c r j _ Hr Hs Hb Hid); discriminate ]. }
  destruct (access_scan j) as [[]|e] eqn:Hacc.
  2,3: rewrite (application_eq p c Hc), open_session_eq, Hr, Hs, Hb, Hid, Hacc;
       apply (session_without_right c r j sid Hr Hs Hb Hid); rewrite Hacc; discriminate.
  assert (Ha : authorized c sid) by (exists r, j; auto).
  rewrite (application_after_session p c sid Hc Ha).
  destruct (service [session_request c] _) as [r2|] eqn:Hr2.
  2:{ apply (templates_unreachable c sid Ha Hr2). }
  destruct (first_id _ _ r2) as [tpl|e] eqn:Hf2.
  2:{ apply (template_missing c sid r2 e Ha Hr2 Hf2). }
  assert (Ht : template_found c sid tpl) by (exists r2; auto).
  destruct (service [session_request c; templates_request c sid] _) as [r3|] eqn:Hr3.
  2:{ apply (policies_unreachable c sid tpl Ha Ht Hr3). }
  destruct (first_id _ _ r3) as [pol|e] eqn:Hf3.
  2:{ apply (policy_missing c sid tpl r3 e Ha Ht Hr3 Hf3). }
  assert (Hp : policy_found c sid tpl pol) by (exists r3; auto).
  destruct (service [session_request c; templates_request c sid; policies_request c sid tpl] _)
    as [r4|] eqn:Hr4.
  2:{ apply (applications_unreachable c sid tpl pol Ha Ht Hp Hr4). }
  destruct (first_id _ _ r4) as [app|e] eqn:Hf4.
  2:{ apply (application_missing c sid tpl pol r4 e Ha Ht Hp Hr4 Hf4). }
  assert (Hres : resolved c sid tpl pol app).
  { repeat split; try assumption. exists r4; auto. }
  rewrite trigger_eq.
  destruct (py_int pol) as [n|e] eqn:Hn.
  2:{ apply (policy_id_not_an_int c sid tpl pol app e Hres Hn). }
  destruct (service (lookups c sid tpl) _) as [r5|] eqn:Hr5.
  2:{ apply (trigger_unreachable c sid tpl pol app n Hres Hn Hr5). }
  cbn [fst snd].
  destruct ((status_code r5 <? 200) || (status_code r5 >? 204)) eqn:Hrange.
  - apply (trigger_refused c sid tpl pol app n r5 Hres Hn Hr5). lia.
  - apply (trigger_accepted c sid tpl pol app n r5 Hres Hn Hr5). lia.
Qed.

(** Each way of [ends] is the run. *)
Lemma ends_application (p : dict (option string)) (c : locals)
    (o : outcome) (log : list request) :
  read_params p = Ok c ->
  ends c o log ->
  run (application p) = (o, log).
Proof.
  intros Hc H.
  destruct H as
    [ Hr | r Hr Hs | r Hr Hs Hb | r j Hr Hs Hb Hid | r j e Hr Hs Hb Hid He
    | r j sid Hr Hs Hb Hid Hacc
    | sid Ha Hr2 | sid r2 e Ha Hr2 Hf2
    | sid tpl Ha Ht Hr3 | sid tpl r3 e Ha Ht Hr3 Hf3
    | sid tpl pol Ha Ht Hp Hr4 | sid tpl pol r4 e Ha Ht Hp Hr4 Hf4
    | sid tpl pol app e Hres Hn | sid tpl pol app n Hres Hn Hr5
    | sid tpl pol app n r5 Hres Hn Hr5 Hrange | sid tpl pol app n r5 Hres Hn Hr5 Hrange ].
  - rewrite (application_eq p c Hc), open_session_eq, Hr. reflexivity.
  - rewrite (application_eq p c Hc), open_session_eq, Hr.
    apply Z.eqb_neq in Hs. rewrite Hs. reflexivity.
  - rewrite (application_eq p c Hc), open_session_eq, Hr, Hs, Hb. reflexivity.
  - rewrite (application_eq p c Hc), open_session_eq, Hr, Hs, Hb, Hid. reflexivity.
  - rewrite (application_eq p c Hc), open_session_eq, Hr, Hs, Hb, Hid.
    destruct e; try reflexivity. destruct (He eq_refl).
  - apply (access_refused p c r j sid Hc Hr Hs Hb Hid Hacc).
  - rewrite (application_after_session p c sid Hc Ha), Hr2. reflexivity.
  - rewrite (application_after_session p c sid Hc Ha), Hr2, Hf2. reflexivity.
  - destruct Ht as (r2 & Hr2 & Hf2).
    rewrite (application_after_session p c sid Hc Ha), Hr2, Hf2, Hr3. reflexivity.
  - destruct Ht as (r2 & Hr2 & Hf2).
    rewrite (application_after_session p c sid Hc Ha), Hr2, Hf2, Hr3, Hf3. reflexivity.
  - destruct Ht as (r2 & Hr2 & Hf2), Hp as (r3 & Hr3 & Hf3).
    rewrite (application_after_session p c sid Hc Ha), Hr2, Hf2, Hr3, Hf3, Hr4.
    reflexivity.
  - destruct Ht as (r2 & Hr2 & Hf2), Hp as (r3 & Hr3 & Hf3).
    rewrite (application_after_session p c sid Hc Ha), Hr2, Hf2, Hr3, Hf3, Hr4, Hf4.
    reflexivity.
  - rewrite (application_resolved p c sid tpl pol app Hc Hres), trigger_eq, Hn.
    reflexivity.
  - rewrite (application_resolved p c sid tpl pol app Hc Hres), trigger_eq, Hn, Hr5.
    reflexivity.
  - rewrite (trigger_outcome p c sid tpl pol app n r5 Hc Hres Hn Hr5).
    replace ((status_code r5 <? 200) || (status_code r5 >? 204)) with true;
      [reflexivity|].
    symmetry. apply orb_true_iff. destruct Hrange; [left | right]; lia.
  - rewrite (trigger_outcome p c sid tpl pol app n r5 Hc Hres Hn Hr5).
    replace ((status_code r5 <? 200) || (status_code r5 >? 204)) with false;
      [reflexivity|].
    symmetry. apply orb_false_iff. split; lia.
Qed.

(* ================================================================= *)
(** ** The scans, completely *)

Lemma ids_named_raise_cause key name (items : list json) (e : exn) :
  ids_named key name items = Raise e ->
  exists x e',
    In x items /\
    (getitem x key = Raise e' \/ (named key name x = true /\ getitem x "id" = Raise e')).
Proof.
  induction items as [|y items IH]; cbn [ids_named bind Monad_py]; [discriminate|].
  destruct (getitem y key) as [v|e0] eqn:Hy.
  2:{ intros _. exists y, e0. split; [left; reflexivity | left; exact Hy]. }
  destruct (name_eq v name) eqn:Hv.
  - destruct (getitem y "id") as [i|e1] eqn:Hi.
    + destruct (ids_named key name items) as [ids|e2]; [discriminate|].
      intros H. destruct (IH H) as (x & e' & Hin & Hx).
      exists x, e'. split; [right; exact Hin | exact Hx].
    + intros _. exists y, e1. split; [left; reflexivity|].
      right. split; [|exact Hi]. unfold named. rewrite Hy. exact Hv.
  - intros H. destruct (IH H) as (x & e' & Hin & Hx).
    exists x, e'. split; [right; exact Hin | exact Hx].
Qed.

Lemma ids_named_nil key name (items : list json) :
  ids_named key name items = Ok [] ->
  forall x, In x items -> named key name x = false.
Proof.
  induction items as [|y items IH]; cbn [ids_named bind Monad_py]; [intros _ x []|].
  destruct (getitem y key) as [v|e0] eqn:Hy; [|discriminate].
  destruct (name_eq v name) eqn:Hv.
  - destruct (getitem y "id"); [|discriminate].
    destruct (ids_named key name items); discriminate.
  - intros H x [<- | Hin]; [|exact (IH H x Hin)].
    unfold named. rewrite Hy. exact Hv.
Qed.

Lemma first_id_raise_cause key name (r : response) (e : exn) :
  first_id key name r = Raise e -> lookup_raises key name r.
Proof.
  unfold first_id, resp_json. cbn [bind Monad_py].
  destruct (body r) as [j|] eqn:Hb; [|intros _; apply not_json; exact Hb].
  destruct (getitem j "items") as [v|e0] eqn:Hitems.
  2:{ intros _. apply (no_items key name r j e0 Hb Hitems). }
  destruct v as [ | b | n | f | s | items | fields ];
    try (intros _; apply (items_not_a_list key name r j _ Hb Hitems); discriminate).
  cbn [iter].
  destruct (ids_named key name items) as [[|i ids]|e1] eqn:Hids.
  - intros _. apply (no_such_name key name r j items Hb Hitems).
    apply ids_named_nil, Hids.
  - discriminate.
  - intros _. destruct (ids_named_raise_cause key name items e1 Hids)
      as (x & e' & Hin & [Hx | [Hn Hx]]).
    + apply (item_without_name key name r j items x e' Hb Hitems Hin Hx).
    + apply (item_without_id key name r j items x e' Hb Hitems Hin Hn Hx).
Qed.

Lemma access_flags_all_ids (items : list json) (flags : list bool) :
  access_flags items = Ok flags ->
  (forall x, In x items -> exists v, getitem x "id" = Ok v) /\
  (forall b, In b flags -> b = true).
Proof.
  revert flags.
  induction items as [|y items IH]; intros flags; cbn [access_flags bind Monad_py].
  - intros H; injection H as <-. split; [intros x [] | intros b []].
  - destruct (getitem y "id") as [v|e0] eqn:Hy; [|discriminate].
    destruct (name_eq v (Some backup_right)).
    + destruct (access_flags items) as [fl|e1]; [|discriminate].
      cbn. intros H; injection H as <-.
      destruct (IH fl eq_refl) as [Hids Htrue]. split.
      * intros x [<- | Hin]; [exists v; exact Hy | exact (Hids x Hin)].
      * intros b [<- | Hin]; [reflexivity | exact (Htrue b Hin)].
    + intros H. destruct (IH flags H) as [Hids Htrue]. split; [|exact Htrue].
      intros x [<- | Hin]; [exists v; exact Hy | exact (Hids x Hin)].
Qed.

Lemma access_flags_granted (items : list json) (x : json) :
  (forall y, In y items -> exists v, getitem y "id" = Ok v) ->
  In x items -> getitem x "id" = Ok (JStr backup_right) ->
  exists flags, access_flags items = Ok (true :: flags).
Proof.
  induction items as [|y items IH]; intros Hids Hin Hx; [destruct Hin|].
  cbn [access_flags bind Monad_py].
  destruct (Hids y (or_introl eq_refl)) as [v Hy]. rewrite Hy.
  assert (Hrest : exists fl, access_flags items = Ok fl).
  { clear IH Hin Hx Hy. induction items as [|z items IHz]; [eexists; reflexivity|].
    cbn [access_flags bind Monad_py].
    destruct (Hids z (or_intror (or_introl eq_refl))) as [w Hz]. rewrite Hz.
    destruct IHz as [fl Hfl].
    { intros u [<- | Hu]; apply Hids; [left; reflexivity | right; right; exact Hu]. }
    rewrite Hfl. destruct (name_eq w (Some backup_right)); eexists; reflexivity. }
  destruct (name_eq v (Some backup_right)) eqn:Hv.
  - destruct Hrest as [fl ->]. exists fl. reflexivity.
  - destruct Hin as [-> | Hin].
    + rewrite Hx in Hy. injection Hy as <-.
      unfold name_eq in Hv. rewrite String.eqb_refl in Hv. discriminate.
    + apply IH; [|exact Hin | exact Hx].
      intros u Hu. apply Hids. right. exact Hu.
Qed.



Lemma append_assoc (a b c : string) : (a ++ b) ++ c = a ++ (b ++ c).
Proof.
  induction a as [|ch a IH]; cbn; [reflexivity | rewrite IH; reflexivity].
Qed.

(** A lookup raises inside its [try] exactly for one of the causes of
    [lookup_raises]; in every other case it yields an id. *)
Theorem lookup_raises_exactly (key : string) (name : option string) (r : response) :
  (exists e, first_id key name r = Raise e) <-> lookup_raises key name r.
Proof.
  split.
  - intros [e He]. exact (first_id_raise_cause key name r e He).
  - apply lookup_raises_first_id.
Qed.

(** The entitlement scan grants access exactly when "rights" is a list,
    every entry of the list has an "id", and one of the ids is the backup
    right; it never yields [False], it raises instead. *)
Theorem access_granted_exactly (j : json) :
  (access_scan j = Ok true <->
   exists items,
     getitem j "rights" = Ok (JArr items) /\
     (forall x, In x items -> exists v, getitem x "id" = Ok v) /\
     (exists x, In x items /\ getitem x "id" = Ok (JStr backup_right)))
  /\ access_scan j <> Ok false.
Proof.
  split; [split|].
  - intros H. destruct (access_scan_true j H) as (items & x & Hr & Hin & Hx).
    exists items. split; [exact Hr|]. split; [|exists x; auto].
    unfold access_scan in H. cbn [bind Monad_py] in H. rewrite Hr in H. cbn [iter] in H.
    destruct (access_flags items) as [flags|e] eqn:Hf; [|discriminate].
    apply (access_flags_all_ids items flags Hf).
  - intros (items & Hr & Hids & x & Hin & Hx).
    unfold access_scan. cbn [bind Monad_py]. rewrite Hr. cbn [iter].
    destruct (access_flags_granted items x Hids Hin Hx) as [flags ->]. reflexivity.
  - unfold access_scan. cbn [bind Monad_py].
    destruct (getitem j "rights") as [v|e]; [|discriminate].
    destruct (iter v) as [l|e]; [|discriminate].
    destruct (access_flags l) as [[|b flags]|e] eqn:Hf; try discriminate.
    cbn. intros H; injection H as ->.
    destruct (access_flags_all_ids l _ Hf) as [_ Htrue].
    discriminate (Htrue false (or_introl eq_refl)).
Qed.


(* ================================================================= *)
(** ** What a run does, step by step *)

Lemma ends_starts_with_session (c : locals) (o : outcome) (log : list request) :
  ends c o log -> exists rest, log = session_request c :: rest.
Proof.
  intros []; eexists; reflexivity.
Qed.

(** The ways of [ends] are all the ways a run can end, and each of them is
    a run: the relation and [application] say the same. *)
Theorem run_ends_exactly (p : dict (option string)) (c : locals)
    (o : outcome) (log : list request) :
  read_params p = Ok c ->
  (run (application p) = (o, log) <-> ends c o log).
Proof.
  intros Hc. split.
  - intros H. pose proof (application_ends p c Hc) as He.
    rewrite H in He. exact He.
  - apply ends_application, Hc.
Qed.

(** A session response whose status is not 200 ends the run with the
    authentication failure, whatever its body, after that one request. *)
Theorem session_status_must_be_200 (p : dict (option string)) (c : locals)
    (r : response) :
  read_params p = Ok c ->
  service [] (session_request c) = Response r ->
  status_code r <> 200 ->
  run (application p)
  = (FailJson [("changed", VBool false);
               ("msg", VStr "Failed authentication - ensure you have authenticated with gcloud")],
     [session_request c]).
Proof.
  intros Hc Hr Hs. apply (ends_application p c _ _ Hc).
  apply (session_refused c r Hr Hs).
Qed.

(** A session response with status 200 and a bad body: a body that is not
    JSON, or JSON that is not an object, is an exception nobody catches
    ([except KeyError] lets the [TypeError] through); an object without
    "id" is the "Failed to get session ID" failure. No lookup follows. *)
Theorem session_body_edge_cases (p : dict (option string)) (c : locals)
    (r : response) :
  read_params p = Ok c ->
  service [] (session_request c) = Response r ->
  status_code r = 200 ->
  (body r = None ->
   run (application p) = (Uncaught JSONDecodeError, [session_request c]))
  /\
  (forall fields,
      body r = Some (JObj fields) -> assoc "id" fields = None ->
      run (application p)
      = (FailJson [("msg", VStr "Failed to get session ID on authentication")],
         [session_request c]))
  /\
  (forall j,
      body r = Some j -> (forall fields, j <> JObj fields) ->
      run (application p) = (Uncaught TypeError, [session_request c])).
Proof.
  intros Hc Hr Hs. split; [|split].
  - intros Hb. apply (ends_application p c _ _ Hc).
    apply (session_not_json c r Hr Hs Hb).
  - intros fields Hb Hid. apply (ends_application p c _ _ Hc).
    apply (session_without_id c r (JObj fields) Hr Hs Hb).
    unfold getitem, dict_get. rewrite Hid. reflexivity.
  - intros j Hb Hj. apply (ends_application p c _ _ Hc).
    apply (session_not_an_object c r j TypeError Hr Hs Hb); [|discriminate].
    destruct j; try reflexivity. destruct (Hj fields eq_refl).
Qed.

(** A request the service does not answer (an exception of [requests]) is
    never caught: the run ends there with that exception, the unanswered
    request being the last one issued. *)
Theorem unreachable_service_is_not_caught (p : dict (option string)) (c : locals) :
  read_params p = Ok c ->
  (service [] (session_request c) = Failure ->
   run (application p) = (Uncaught RequestException, [session_request c]))
  /\
  (forall sid,
      authorized c sid ->
      service [session_request c] (templates_request c sid) = Failure ->
      run (application p)
      = (Uncaught RequestException, [session_request c; templates_request c sid]))
  /\
  (forall sid tpl,
      authorized c sid -> template_found c sid tpl ->
      service [session_request c; templates_request c sid]
              (policies_request c sid tpl) = Failure ->
      run (application p)
      = (Uncaught RequestException,
         [session_request c; templates_request c sid; policies_request c sid tpl]))
  /\
  (forall sid tpl pol,
      authorized c sid -> template_found c sid tpl -> policy_found c sid tpl pol ->
      service [session_request c; templates_request c sid; policies_request c sid tpl]
              (applications_request c sid) = Failure ->
      run (application p) = (Uncaught RequestException, lookups c sid tpl))
  /\
  (forall sid tpl pol app n,
      resolved c sid tpl pol app -> py_int pol = Ok n ->
      service (lookups c sid tpl) (backup_request c sid app (JObj (backup_body c n)))
      = Failure ->
      run (application p)
      = (Uncaught RequestException,
         (lookups c sid tpl ++ [backup_request c sid app (JObj (backup_body c n))])%list)).
Proof.
  intros Hc. repeat split; intros; apply (ends_application p c _ _ Hc).
  - apply session_unreachable; assumption.
  - apply templates_unreachable; assumption.
  - apply policies_unreachable; assumption.
  - eapply applications_unreachable; eassumption.
  - eapply trigger_unreachable; eassumption.
Qed.

(** A policy id that [int()] refuses (null, a list, a string that is no
    number...) raises after the four lookups, outside any [try]: the run
    ends with that exception and no trigger call. *)
Theorem policy_id_must_convert (p : dict (option string)) (c : locals)
    (sid tpl pol app : json) (e : exn) :
  read_params p = Ok c ->
  resolved c sid tpl pol app ->
  py_int pol = Raise e ->
  run (application p) = (Uncaught e, lookups c sid tpl).
Proof.
  intros Hc Hres Hn. apply (ends_application p c _ _ Hc).
  apply (policy_id_not_an_int c sid tpl pol app e Hres Hn).
Qed.

(** Once the ids are resolved and the trigger call is answered, the status
    alone decides: 200 to 204, bounds included, is success; any other
    status is the failure whose message shows the status code. Either way
    the trigger call is the fifth and last request: it is not repeated. *)
Theorem trigger_status_decides (p : dict (option string)) (c : locals)
    (sid tpl pol app : json) (n : Z) (r : response) :
  read_params p = Ok c ->
  resolved c sid tpl pol app ->
  py_int pol = Ok n ->
  service (lookups c sid tpl) (backup_request c sid app (JObj (backup_body c n)))
  = Response r ->
  snd (run (application p))
  = (lookups c sid tpl ++ [backup_request c sid app (JObj (backup_body c n))])%list
  /\
  (200 <= status_code r <= 204 ->
   fst (run (application p))
   = ExitJson [("changed", VBool true);
               ("msg", VStr ("Backup initiated for application '"
                             ++ fmt (app_name c) ++ "'"))])
  /\
  (status_code r < 200 \/ 204 < status_code r ->
   fst (run (application p))
   = FailJson [("msg", VStr ("Failed to initiate backup of application '"
                             ++ fmt (app_name c) ++ "' (HTTP "
                             ++ decimal (status_code r)
                             ++ ": <bound method Response.json of <Response ["
                             ++ decimal (status_code r) ++ "]>>)"))]).
Proof.
  intros Hc Hres Hn Hr. split; [|split].
  - rewrite (trigger_outcome p c sid tpl pol app n r Hc Hres Hn Hr). reflexivity.
  - intros Hrange.
    rewrite (ends_application p c _ _ Hc
               (trigger_accepted c sid tpl pol app n r Hres Hn Hr Hrange)).
    reflexivity.
  - intros Hrange.
    rewrite (ends_application p c _ _ Hc
               (trigger_refused c sid tpl pol app n r Hres Hn Hr Hrange)).
    cbn [fst]. unfold trigger_failure, trigger_message, bound_json_method.
    rewrite !append_assoc. reflexivity.
Qed.

(** Success is reported only for a run that resolved its ids and whose
    trigger call the service answered with a status from 200 to 204. *)
Theorem success_needs_accepted_trigger (p : dict (option string)) (c : locals)
    (kwargs : dict value) :
  read_params p = Ok c ->
  fst (run (application p)) = ExitJson kwargs ->
  exists sid tpl pol app n r,
    resolved c sid tpl pol app /\ py_int pol = Ok n /\
    service (lookups c sid tpl) (backup_request c sid app (JObj (backup_body c n)))
    = Response r /\
    200 <= status_code r <= 204 /\
    snd (run (application p))
    = (lookups c sid tpl ++ [backup_request c sid app (JObj (backup_body c n))])%list.
Proof.
  intros Hc Hexit. pose proof (application_ends p c Hc) as He.
  rewrite Hexit in He.
  remember (ExitJson kwargs) as o eqn:Ho.
  destruct He; try discriminate Ho.
  eexists sid, tpl, pol, app, n, r. auto.
Qed.

(** The requests of a run are the first [k] of the five requests of the
    protocol, in that order, none of them twice, with [k] between 1 and 5;
    and each request is issued only after the steps before it have
    succeeded. *)
Theorem requests_in_order (p : dict (option string)) (c : locals) :
  read_params p = Ok c ->
  exists k sid tpl pol app payload,
    (1 <= k <= 5)%nat /\
    snd (run (application p))
    = firstn k (lookups c sid tpl ++ [backup_request c sid app payload])%list /\
    ((2 <= k)%nat -> authorized c sid) /\
    ((3 <= k)%nat -> template_found c sid tpl) /\
    ((4 <= k)%nat -> policy_found c sid tpl pol) /\
    ((5 <= k)%nat ->
     application_found c sid tpl app /\
     exists n, py_int pol = Ok n /\ payload = JObj (backup_body c n)).
Proof.
  intros Hc. pose proof (application_ends p c Hc) as He.
  destruct He as
    [ Hr | r Hr Hs | r Hr Hs Hb | r j Hr Hs Hb Hid | r j e Hr Hs Hb Hid He
    | r j sid Hr Hs Hb Hid Hacc
    | sid Ha Hr2 | sid r2 e Ha Hr2 Hf2
    | sid tpl Ha Ht Hr3 | sid tpl r3 e Ha Ht Hr3 Hf3
    | sid tpl pol Ha Ht Hp Hr4 | sid tpl pol r4 e Ha Ht Hp Hr4 Hf4
    | sid tpl pol app e [Ha [Ht [Hp Hq]]] Hn
    | sid tpl pol app n [Ha [Ht [Hp Hq]]] Hn Hr5
    | sid tpl pol app n r5 [Ha [Ht [Hp Hq]]] Hn Hr5 Hrange
    | sid tpl pol app n r5 [Ha [Ht [Hp Hq]]] Hn Hr5 Hrange ].
  1-6: exists 1%nat, JNull, JNull, JNull, JNull, JNull;
       (split; [lia|]); (split; [reflexivity|]); repeat split; intros; lia.
  1-2: exists 2%nat, sid, JNull, JNull, JNull, JNull;
       (split; [lia|]); (split; [reflexivity|]);
       repeat split; intros; solve [assumption | lia].
  1-2: exists 3%nat, sid, tpl, JNull, JNull, JNull;
       (split; [lia|]); (split; [reflexivity|]);
       repeat split; intros; solve [assumption | lia].
  1-2: exists 4%nat, sid, tpl, pol, JNull, JNull;
       (split; [lia|]); (split; [reflexivity|]);
       repeat split; intros; solve [assumption | lia].
  - exists 4%nat, sid, tpl, pol, app, JNull.
    (split; [lia|]); (split; [reflexivity|]);
      repeat split; intros; solve [assumption | lia].
  - exists 5%nat, sid, tpl, pol, app, (JObj (backup_body c n)).
    (split; [lia|]); (split; [reflexivity|]).
    repeat split; intros; try assumption. exists n. auto.
  - exists 5%nat, sid, tpl, pol, app, (JObj (backup_body c n)).
    (split; [lia|]); (split; [reflexivity|]).
    repeat split; intros; try assumption. exists n. auto.
  - exists 5%nat, sid, tpl, pol, app, (JObj (backup_body c n)).
    (split; [lia|]); (split; [reflexivity|]).
    repeat split; intros; try assumption. exists n. auto.
Qed.

(** Whatever the run, its first request is the session POST, with the
    bearer token and no session header; every later request carries the
    bearer token and, as "backupdr-management-session", "Actifio" followed
    by the id the session response gave. *)
Theorem requests_carry_credentials (p : dict (option string)) (c : locals) :
  read_params p = Ok c ->
  exists rest,
    snd (run (application p)) = session_request c :: rest /\
    rq_method (session_request c) = POST /\
    rq_headers (session_request c)
    = [("Authorization", "Bearer " ++ access_token c);
       ("Content-Type", "application/json")] /\
    (rest = [] \/
     exists sid,
       authorized c sid /\
       forall rq,
         In rq rest ->
         rq_headers rq
         = [("Authorization", "Bearer " ++ access_token c);
            ("Content-Type", "application/json");
            ("backupdr-management-session", "Actifio " ++ py_str sid)]).
Proof.
  intros Hc. pose proof (application_ends p c Hc) as He.
  destruct He as
    [ Hr | r Hr Hs | r Hr Hs Hb | r j Hr Hs Hb Hid | r j e Hr Hs Hb Hid He
    | r j sid Hr Hs Hb Hid Hacc
    | sid Ha Hr2 | sid r2 e Ha Hr2 Hf2
    | sid tpl Ha Ht Hr3 | sid tpl r3 e Ha Ht Hr3 Hf3
    | sid tpl pol Ha Ht Hp Hr4 | sid tpl pol r4 e Ha Ht Hp Hr4 Hf4
    | sid tpl pol app e [Ha _] Hn
    | sid tpl pol app n [Ha _] Hn Hr5
    | sid tpl pol app n r5 [Ha _] Hn Hr5 Hrange
    | sid tpl pol app n r5 [Ha _] Hn Hr5 Hrange ].
  1-6: exists []; repeat split; left; reflexivity.
  all: eexists; (split; [reflexivity|]); (split; [reflexivity|]);
       (split; [reflexivity|]); right; exists sid; (split; [exact Ha|]);
       intros rq Hin; cbn in Hin;
       repeat (destruct Hin as [<- | Hin]; [reflexivity|]); destruct Hin.
Qed.

(** Outside check mode [main] needs [api_url] and [access_token] and
    nothing else: without one of them it dies of an [AttributeError]
    before any request; with both, whatever else the task gives or leaves
    out, it sends the session POST to the url without its trailing slashes,
    with the token as [str.rstrip()] leaves it. *)
Theorem main_needs_url_and_token (a : task_args) :
  (arg_api_url a = None \/ arg_access_token a = None ->
   run (main {| args := a; check_mode := false |}) = (Uncaught AttributeError, []))
  /\
  (forall u t,
      arg_api_url a = Some u -> arg_access_token a = Some t ->
      exists rest,
        snd (run (main {| args := a; check_mode := false |}))
        = {| rq_method := POST;
             rq_url := rstrip is_slash u ++ "/session";
             rq_headers := [("Authorization", "Bearer " ++ rstrip_space t);
                            ("Content-Type", "application/json")];
             rq_json := None |} :: rest).
Proof.
  rewrite main_is_application. split.
  - intros H. apply application_params_error.
    destruct a as [u t tn pn an lb]; cbn in H |- *.
    destruct u as [u|]; [|reflexivity].
    destruct t as [t|]; [|reflexivity].
    destruct H; discriminate.
  - intros u t Hu Ht.
    destruct a as [u' t' tn pn an lb]; cbn in Hu, Ht; subst u' t'.
    set (c := {| api_url := rstrip is_slash u; access_token := rstrip_space t;
                 template_name := tn; policy_name := pn; app_name := an; label := lb |}).
    assert (Hc : read_params
                   [("api_url", Some u); ("access_token", Some t);
                    ("template_name", tn); ("policy_name", pn);
                    ("app_name", an); ("label", lb)] = Ok c) by reflexivity.
    cbn [arg_api_url arg_access_token arg_template_name arg_policy_name
         arg_app_name arg_label].
    destruct (ends_starts_with_session c _ _ (application_ends _ c Hc)) as [rest Hrest].
    exists rest. exact Hrest.
Qed.

End Plugin.

(* ================================================================= *)
(** ** Runs on the sample services *)

(** A session "S1" with the backup right, one template, one policy, one
    application, and a trigger response of status 202. *)
Example sample_run_succeeds :
  run (application (scripted (sample_service 202 None)) sample_repr decimal_literal ascii_rstrip
                   (sample_params None))
  = (ExitJson [("changed", VBool true);
               ("msg", VStr "Backup initiated for application 'app'")],
     (lookups sample_repr (sample_locals None) (JStr "S1") (JInt 1)
        ++ [backup_request sample_repr (sample_locals None) (JStr "S1") (JInt 3)
              (JObj [("policy", JObj [("id", JInt 2)])])])%list).
Proof. reflexivity. Qed.

Example sample_run_urls :
  map rq_url
    (snd (run (application (scripted duplicates_service) sample_repr decimal_literal ascii_rstrip
                           (sample_params None))))
  = ["https://backup.example/actifio/session";
     "https://backup.example/actifio/slt";
     "https://backup.example/actifio/slt/1/policy";
     "https://backup.example/actifio/application";
     "https://backup.example/actifio/application/3/backup"].
Proof. reflexivity. Qed.

Example sample_is_resolved :
  resolved (scripted (sample_service 202 None)) sample_repr
           (sample_locals None) (JStr "S1") (JInt 1) (JInt 2) (JInt 3).
Proof.
  repeat split; eexists; try eexists; repeat split; reflexivity.
Qed.

(** No session: the run fails before any lookup. *)
Example sample_run_unauthenticated :
  run (application (scripted [Response {| status_code := 401; body := None |}])
                   sample_repr decimal_literal ascii_rstrip (sample_params None))
  = (authentication_failure, [session_request (sample_locals None)]).
Proof. reflexivity. Qed.

(** An option marked [required] is enforced by the host. *)
Example required_option_is_enforced :
  run (bind (AnsibleModule
               [("template_name", {| arg_type := "str"; required := true |})]
               {| args := {| arg_api_url := Some "u"; arg_access_token := Some "t";
                             arg_template_name := None; arg_policy_name := None;
                             arg_app_name := None; arg_label := None |};
                  check_mode := false |})
            (application (scripted []) sample_repr decimal_literal ascii_rstrip))
  = (MissingRequired ["template_name"], []).
Proof. reflexivity. Qed.

(* ================================================================= *)
(** ** The properties at work *)

Lemma no_entitlement_no_lookup_witness :
  run (application (scripted [ok_response other_rights]) sample_repr decimal_literal ascii_rstrip
                   (sample_params None))
  = (access_denied, [session_request (sample_locals None)]).
Proof.
  apply (no_entitlement_no_lookup
           (scripted [ok_response other_rights]) sample_repr decimal_literal ascii_rstrip
           (sample_params None) (sample_locals None)
           {| status_code := 200; body := Some other_rights |}
           other_rights (JStr "S1")); try reflexivity.
  intros items x Hrights Hin. cbn in Hrights. injection Hrights as <-.
  destruct Hin as [<- | []]. cbn. discriminate.
Defined.

Lemma malformed_rights_read_as_no_access_witness :
  (exists e, access_scan rights_as_text = Raise e) /\
  run (application (scripted [ok_response rights_as_text]) sample_repr decimal_literal ascii_rstrip
                   (sample_params None))
  = (access_denied, [session_request (sample_locals None)]).
Proof.
  apply (malformed_rights_read_as_no_access
           (scripted [ok_response rights_as_text]) sample_repr decimal_literal ascii_rstrip
           (sample_params None) (sample_locals None)
           {| status_code := 200; body := Some rights_as_text |}
           rights_as_text (JStr "S1")); try reflexivity.
  apply rights_not_a_list with (v := JStr "Access to Backup & Recover");
    [reflexivity | discriminate].
Defined.

Lemma sample_authorized (script : list reply) :
  authorized (scripted (session_S1 :: script)) (sample_locals None) (JStr "S1").
Proof.
  eexists. eexists. repeat split; reflexivity.
Defined.

Ltac sample_scanned :=
  eexists; eexists; split; [reflexivity|]; split; [reflexivity|];
  intros x Hin; cbn in Hin;
  repeat (destruct Hin as [<- | Hin];
          [split; [eexists; reflexivity | intros _; eexists; reflexivity]|]);
  destruct Hin.

Lemma lookups_take_first_match_of_scanned_list_witness :
  snd (run (application (scripted duplicates_service) sample_repr decimal_literal
                        ascii_rstrip (sample_params None)))
  = (lookups sample_repr (sample_locals None) (JStr "S1") (JInt 1)
       ++ [backup_request sample_repr (sample_locals None) (JStr "S1") (JInt 3)
             (JObj [("policy", JObj [("id", JInt 2)])])])%list.
Proof.
  refine (proj1 (proj2 (lookups_take_first_match_of_scanned_list
                         (scripted duplicates_service) sample_repr decimal_literal
                         ascii_rstrip)
                      (sample_params None) (sample_locals None)
                      (JStr "S1") (JInt 1) (JInt 2) (JInt 3)
                      (listing_of [item "name" 7 "other"; item "name" 1 "tpl";
                                   item "name" 9 "tpl"])
                      (listing_of [item "name" 2 "pol"; item "name" 8 "pol"])
                      (listing_of [item "appname" 3 "app"; item "appname" 4 "app"])
                      eq_refl (sample_authorized _) eq_refl _ _ eq_refl _ _ eq_refl _ _)
               2 eq_refl).
  - sample_scanned.
  - exists (JObj [("items", JArr [item "name" 7 "other"; item "name" 1 "tpl";
                                  item "name" 9 "tpl"])]),
      [item "name" 7 "other"], (item "name" 1 "tpl"), [item "name" 9 "tpl"].
    repeat split. intros y [<- | []]. reflexivity.
  - sample_scanned.
  - exists (JObj [("items", JArr [item "name" 2 "pol"; item "name" 8 "pol"])]),
      [], (item "name" 2 "pol"), [item "name" 8 "pol"].
    repeat split. intros y [].
  - sample_scanned.
  - exists (JObj [("items", JArr [item "appname" 3 "app"; item "appname" 4 "app"])]),
      [], (item "appname" 3 "app"), [item "appname" 4 "app"].
    repeat split. intros y [].
Defined.

(** C5, as stated, fails: in a policy listing that holds the requested
    name twice, the second time without an id, the first item of that name
    has id 2, and yet the lookup raises and the run ends with the policy
    not found. *)
Lemma later_item_without_id_fails_lookup :
  first_named "name" (Some "pol") second_policy_without_id (JInt 2)
  /\ first_id "name" (Some "pol") second_policy_without_id = Raise KeyError
  /\ run (application
            (scripted [session_S1; items_response [item "name" 1 "tpl"];
                       Response second_policy_without_id])
            sample_repr decimal_literal ascii_rstrip (sample_params None))
     = (FailJson [("msg", VStr "Failed to retrieve SLA template policy 'pol' for SLA template 'tpl'")],
        [session_request (sample_locals None);
         templates_request sample_repr (sample_locals None) (JStr "S1");
         policies_request sample_repr (sample_locals None) (JStr "S1") (JInt 1)]).
Proof.
  split; [|split; reflexivity].
  exists (JObj [("items", JArr [item "name" 2 "pol"; JObj [("name", JStr "pol")]])]),
    [], (item "name" 2 "pol"), [JObj [("name", JStr "pol")]].
  repeat split. intros y [].
Qed.

Lemma malformed_listing_reads_as_not_found_witness :
  run (application (scripted [session_S1; Response {| status_code := 200; body := None |}])
                   sample_repr decimal_literal ascii_rstrip (sample_params None))
  = (FailJson [("msg", VStr "Failed to retrieve SLA template 'tpl'")],
     [session_request (sample_locals None);
      templates_request sample_repr (sample_locals None) (JStr "S1")]).
Proof.
  apply (proj1 (malformed_listing_reads_as_not_found
                  (scripted [session_S1; Response {| status_code := 200; body := None |}])
                  sample_repr decimal_literal ascii_rstrip
                  (sample_params None) (sample_locals None) (JStr "S1")
                  eq_refl (sample_authorized _))
               {| status_code := 200; body := None |}).
  - reflexivity.
  - apply not_json. reflexivity.
Defined.

Lemma trigger_body_policy_and_label_witness :
  exists rq,
    snd (run (application (scripted (sample_service 202 None)) sample_repr decimal_literal ascii_rstrip
                          (sample_params (Some "nightly"))))
    = (lookups sample_repr (sample_locals (Some "nightly")) (JStr "S1") (JInt 1) ++ [rq])%list /\
    is_trigger (sample_locals (Some "nightly")) rq /\
    rq_json rq
    = Some (JObj [("policy", JObj [("id", JInt 2)]); ("label", JStr "nightly")]).
Proof.
  apply (trigger_body_policy_and_label
           (scripted (sample_service 202 None)) sample_repr decimal_literal ascii_rstrip
           (sample_params (Some "nightly")) (sample_locals (Some "nightly"))
           (JStr "S1") (JInt 1) (JInt 2) (JInt 3) 2); try reflexivity.
  repeat split; eexists; try eexists; repeat split; reflexivity.
Defined.

(** C7, as stated, fails: a session response without an id ends the run
    with a message and no "changed" field. *)
Lemma failure_without_changed_field :
  fst (run (application (scripted [ok_response (JObj [])]) sample_repr decimal_literal ascii_rstrip
                        (sample_params None)))
  = FailJson [("msg", VStr "Failed to get session ID on authentication")]
  /\ has_contract [("msg", VStr "Failed to get session ID on authentication")] = false.
Proof. split; reflexivity. Qed.

(** C8, as stated, fails: an empty label is present among the parameters,
    and the body of the trigger call has no "label" key. *)
Lemma empty_label_is_left_out :
  dict_get (sample_params (Some "")) "label" = Ok (Some "")
  /\ map rq_json
       (snd (run (application (scripted (sample_service 202 None)) sample_repr
                              decimal_literal ascii_rstrip (sample_params (Some "")))))
     = [None; None; None; None; Some (JObj [("policy", JObj [("id", JInt 2)])])].
Proof. split; reflexivity. Qed.

(** C2. A trigger response with status 500 and a JSON body: the run
    fails, after one trigger call, with a message that holds the status
    code and, in place of the body, the text of the bound method
    [Response.json]; the body of the response shows nowhere. *)
Theorem trigger_failure_message_lacks_body :
  run (application (scripted (sample_service 500 (Some (JObj [("error", JStr "disk full")]))))
                   sample_repr decimal_literal ascii_rstrip (sample_params None))
  = (FailJson [("msg", VStr "Failed to initiate backup of application 'app' (HTTP 500: <bound method Response.json of <Response [500]>>)")],
     (lookups sample_repr (sample_locals None) (JStr "S1") (JInt 1)
        ++ [backup_request sample_repr (sample_locals None) (JStr "S1") (JInt 3)
              (JObj [("policy", JObj [("id", JInt 2)])])])%list).
Proof. reflexivity. Qed.

(** C3. A task without [template_name]: nothing rejects it, the module
    opens a session and asks for the templates, looking for a template
    whose name is [None]. *)
Theorem missing_template_name_reaches_service :
  AnsibleModule argument_spec task_without_template []
  = (Val [("api_url", Some "https://backup.example/actifio/");
          ("access_token", Some "token");
          ("template_name", None);
          ("policy_name", Some "pol");
          ("app_name", Some "app");
          ("label", None)], [])
  /\ fst (run (main (scripted (sample_service 202 None)) sample_repr decimal_literal ascii_rstrip
                    task_without_template))
     = FailJson [("msg", VStr "Failed to retrieve SLA template 'None'")]
  /\ map (fun rq => (rq_method rq, rq_url rq))
         (snd (run (main (scripted (sample_service 202 None)) sample_repr decimal_literal ascii_rstrip
                         task_without_template)))
     = [(POST, "https://backup.example/actifio/session");
        (GET, "https://backup.example/actifio/slt")].
Proof. repeat split. Qed.

(* ================================================================= *)
(** ** The further properties at work *)

Lemma run_ends_exactly_witness :
  ends (scripted [Response {| status_code := 401; body := None |}])
       sample_repr decimal_literal (sample_locals None)
       authentication_failure [session_request (sample_locals None)].
Proof.
  apply (proj1 (run_ends_exactly
                  (scripted [Response {| status_code := 401; body := None |}])
                  sample_repr decimal_literal ascii_rstrip (sample_params None) (sample_locals None)
                  authentication_failure [session_request (sample_locals None)]
                  eq_refl)).
  reflexivity.
Defined.

Lemma session_status_must_be_200_witness :
  run (application (scripted [Response {| status_code := 204; body := None |}])
                   sample_repr decimal_literal ascii_rstrip (sample_params None))
  = (authentication_failure, [session_request (sample_locals None)]).
Proof.
  apply (session_status_must_be_200
           (scripted [Response {| status_code := 204; body := None |}])
           sample_repr decimal_literal ascii_rstrip (sample_params None) (sample_locals None)
           {| status_code := 204; body := None |}); [reflexivity | reflexivity |].
  discriminate.
Defined.

Lemma session_body_edge_cases_witness :
  run (application (scripted [ok_response (JArr [])]) sample_repr decimal_literal ascii_rstrip
                   (sample_params None))
  = (Uncaught TypeError, [session_request (sample_locals None)]).
Proof.
  apply (proj2 (proj2 (session_body_edge_cases
                         (scripted [ok_response (JArr [])]) sample_repr decimal_literal ascii_rstrip
                         (sample_params None) (sample_locals None)
                         {| status_code := 200; body := Some (JArr []) |}
                         eq_refl eq_refl eq_refl))
               (JArr []) eq_refl).
  discriminate.
Defined.

Lemma unreachable_service_is_not_caught_witness :
  run (application (scripted [session_S1]) sample_repr decimal_literal ascii_rstrip
                   (sample_params None))
  = (Uncaught RequestException,
     [session_request (sample_locals None);
      templates_request sample_repr (sample_locals None) (JStr "S1")]).
Proof.
  apply (proj1 (proj2 (unreachable_service_is_not_caught
                         (scripted [session_S1]) sample_repr decimal_literal ascii_rstrip
                         (sample_params None) (sample_locals None) eq_refl))
               (JStr "S1") (sample_authorized _) eq_refl).
Defined.

Lemma policy_id_must_convert_witness :
  run (application (scripted null_policy_service) sample_repr decimal_literal ascii_rstrip
                   (sample_params None))
  = (Uncaught TypeError, lookups sample_repr (sample_locals None) (JStr "S1") (JInt 1)).
Proof.
  apply (policy_id_must_convert
           (scripted null_policy_service) sample_repr decimal_literal ascii_rstrip
           (sample_params None) (sample_locals None)
           (JStr "S1") (JInt 1) JNull (JInt 3) TypeError); [reflexivity | | reflexivity].
  repeat split; eexists; try eexists; repeat split; reflexivity.
Defined.

Lemma trigger_status_decides_witness :
  fst (run (application (scripted (sample_service 204 None)) sample_repr decimal_literal ascii_rstrip
                        (sample_params None)))
  = ExitJson [("changed", VBool true);
              ("msg", VStr "Backup initiated for application 'app'")].
Proof.
  apply (proj1 (proj2 (trigger_status_decides
                         (scripted (sample_service 204 None)) sample_repr decimal_literal ascii_rstrip
                         (sample_params None) (sample_locals None)
                         (JStr "S1") (JInt 1) (JInt 2) (JInt 3) 2
                         {| status_code := 204; body := None |}
                         eq_refl
                         (conj (sample_authorized _)
                               (conj (ex_intro _ _ (conj eq_refl eq_refl))
                                     (conj (ex_intro _ _ (conj eq_refl eq_refl))
                                           (ex_intro _ _ (conj eq_refl eq_refl)))))
                         eq_refl eq_refl))).
  cbn. lia.
Defined.

Lemma success_needs_accepted_trigger_witness :
  exists sid tpl pol app n r,
    resolved (scripted (sample_service 202 None)) sample_repr
             (sample_locals None) sid tpl pol app /\
    py_int decimal_literal pol = Ok n /\
    scripted (sample_service 202 None)
             (lookups sample_repr (sample_locals None) sid tpl)
             (backup_request sample_repr (sample_locals None) sid app
                             (JObj (backup_body (sample_locals None) n)))
    = Response r /\
    200 <= status_code r <= 204 /\
    snd (run (application (scripted (sample_service 202 None)) sample_repr
                          decimal_literal ascii_rstrip (sample_params None)))
    = (lookups sample_repr (sample_locals None) sid tpl
         ++ [backup_request sample_repr (sample_locals None) sid app
               (JObj (backup_body (sample_locals None) n))])%list.
Proof.
  apply (success_needs_accepted_trigger
           (scripted (sample_service 202 None)) sample_repr decimal_literal ascii_rstrip
           (sample_params None) (sample_locals None)
           [("changed", VBool true);
            ("msg", VStr "Backup initiated for application 'app'")]);
    reflexivity.
Defined.

Lemma requests_in_order_witness :
  exists k sid tpl pol app payload,
    (1 <= k <= 5)%nat /\
    snd (run (application (scripted [session_S1; items_response []]) sample_repr
                          decimal_literal ascii_rstrip (sample_params None)))
    = firstn k (lookups sample_repr (sample_locals None) sid tpl
                  ++ [backup_request sample_repr (sample_locals None) sid app payload])%list /\
    ((2 <= k)%nat ->
     authorized (scripted [session_S1; items_response []]) (sample_locals None) sid) /\
    ((3 <= k)%nat ->
     template_found (scripted [session_S1; items_response []]) sample_repr
                    (sample_locals None) sid tpl) /\
    ((4 <= k)%nat ->
     policy_found (scripted [session_S1; items_response []]) sample_repr
                  (sample_locals None) sid tpl pol) /\
    ((5 <= k)%nat ->
     application_found (scripted [session_S1; items_response []]) sample_repr
                       (sample_locals None) sid tpl app /\
     exists n, py_int decimal_literal pol = Ok n /\
               payload = JObj (backup_body (sample_locals None) n)).
Proof.
  apply (requests_in_order
           (scripted [session_S1; items_response []]) sample_repr decimal_literal ascii_rstrip
           (sample_params None) (sample_locals None)).
  reflexivity.
Defined.

Lemma requests_carry_credentials_witness :
  exists rest,
    snd (run (application (scripted (sample_service 202 None)) sample_repr
                          decimal_literal ascii_rstrip (sample_params None)))
    = session_request (sample_locals None) :: rest /\
    rq_method (session_request (sample_locals None)) = POST /\
    rq_headers (session_request (sample_locals None))
    = [("Authorization", "Bearer token"); ("Content-Type", "application/json")] /\
    (rest = [] \/
     exists sid,
       authorized (scripted (sample_service 202 None)) (sample_locals None) sid /\
       forall rq,
         In rq rest ->
         rq_headers rq
         = [("Authorization", "Bearer token");
            ("Content-Type", "application/json");
            ("backupdr-management-session", "Actifio " ++ py_str sample_repr sid)]).
Proof.
  apply (requests_carry_credentials
           (scripted (sample_service 202 None)) sample_repr decimal_literal ascii_rstrip
           (sample_params None) (sample_locals None)).
  reflexivity.
Defined.

